(** * AASHTO 1993 Structural Number calculator (hellofriday.py)

    A shallow embedding of the computational part of [src/hellofriday.py]:
    the reliability table, the CBR conversion, the serviceability loss, the
    residual [aashto_equation], the call of [scipy.optimize.fsolve] and the
    values the page reports.

    Number model.  Python's [float] (and the one-element array that [fsolve]
    hands to the residual) is idealised as a real number: [+ - * /] are the
    field operations of [R], [math.log10 x] is [ln x / ln 10], and
    [x ** y] on a positive base is [Rpower x y].  Rounding error, overflow,
    [nan] and [inf] are outside the model.  What Python raises is kept:
    every partial operation returns a [result], and the residual threads it
    in the order of the source lines.  A division by a nonzero literal
    ([/ 4.2], [/ 2], [/ 3], [/ 0.44]) cannot raise and is written [/]. *)

From Stdlib Require Import Reals Ranalysis5 Lra ZArith Lia List.
From Stdlib Require Import FunctionalExtensionality.
Import ListNotations.
Open Scope R_scope.

(** ** Python exceptions and results *)

Module Py.

(** The exception classes the script can meet; each is a subclass of
    [Exception], so [except Exception] (line 252) catches it.  The last
    constructor is no Python exception: a negative float base with a
    fractional exponent answers a complex number, which the real-number
    model does not hold.  The residual never gets there, because
    [math.log10 (SN + 1)] raises first ([aashto_equation_raises]). *)
Inductive exn : Type :=
| ValueError              (* math domain error *)
| ZeroDivisionError       (* float division by zero *)
| KeyError (key : R)      (* dict lookup on a missing key *)
| TypeError (status : Z)  (* fsolve: improper input or unknown status *)
| ComplexResult.

Inductive result (A : Type) : Type :=
| Ok (a : A)
| Raise (e : exn).

Arguments Ok {A} a.
Arguments Raise {A} e.

Definition bind {A B : Type} (m : result A) (k : A -> result B) : result B :=
  match m with
  | Ok a => k a
  | Raise e => Raise e
  end.

Definition is_ok {A : Type} (m : result A) : bool :=
  match m with Ok _ => true | Raise _ => false end.

(** [math.log10]: raises [ValueError] outside the positive reals. *)
Definition log10 (x : R) : R := ln x / ln 10.

Definition math_log10 (x : R) : result R :=
  if Rlt_dec 0 x then Ok (log10 x) else Raise ValueError.

(** True division [a / b]. *)
Definition truediv (a b : R) : result R :=
  if Req_dec_T b 0 then Raise ZeroDivisionError else Ok (a / b).

(** Float power [x ** y]. *)
Definition float_pow (x y : R) : result R :=
  if Rlt_dec 0 x then Ok (Rpower x y)
  else if Req_dec_T x 0 then
         if Rlt_dec 0 y then Ok 0
         else if Req_dec_T y 0 then Ok 1
              else Raise ZeroDivisionError
       else Raise ComplexResult.

(** [math.ceil] answers a Python integer. *)
Definition math_ceil (x : R) : Z := Zceil x.

(** [d[k]] on a dict written as its item list: first match, [KeyError]
    when there is none.  Keys compare by numeric value, as Python's
    [50 == 50.0] does. *)
Fixpoint getitem (d : list (R * R)) (k : R) : result R :=
  match d with
  | [] => Raise (KeyError k)
  | (k', v) :: d' => if Req_dec_T k k' then Ok v else getitem d' k
  end.

End Py.

Import Py.

Notation "x <- m ;; k" := (bind m (fun x => k))
  (at level 61, m at next level, right associativity).

(** ** The residual (lines 148-164) *)

(** Line 157, the conditional expression that picks the numerator of the
    third term. *)
Definition term3_numerator (delta_psi : R) : result R :=
  if Rlt_dec 0 (delta_psi / 4.2 - 1.5)
  then math_log10 (delta_psi / 4.2 - 1.5)
  else math_log10 0.001.

(** Line 158. *)
Definition term3_denominator (SN : R) : result R :=
  p <- float_pow (SN + 1) 5.19 ;;
  q <- truediv 1094 p ;;
  Ok (0.40 + q).

Definition aashto_equation (SN W18 ZR S0 delta_psi MR : R) : result R :=
  log_W18 <- math_log10 W18 ;;
  let term1 := ZR * S0 in
  l2 <- math_log10 (SN + 1) ;;
  let term2 := 9.36 * l2 - 0.20 in
  num <- term3_numerator delta_psi ;;
  den <- term3_denominator SN ;;
  term3 <- truediv num den ;;
  l4 <- math_log10 MR ;;
  let term4 := 2.32 * l4 - 8.07 in
  let result := term1 + term2 + term3 + term4 in
  Ok (result - log_W18).

(** ** The page inputs (lines 41-143) *)

(** The two options of the radio at line 92, in the order of the source:
    the modulus typed in directly, or converted from CBR. *)
Inductive mr_option : Type :=
| MR_direct
| MR_from_CBR.

(** The widget values one run of the script reads. *)
Record widgets : Type := {
  esal_input : R;           (* number_input, line 41 *)
  reliability_percent : R;  (* selectbox, line 54 *)
  s0 : R;                   (* number_input, line 79 *)
  mr_input_type : mr_option;(* radio, line 92 *)
  mr_number : R;            (* number_input, line 99 *)
  cbr : R;                  (* number_input, line 108 *)
  p_i : R;                  (* number_input, line 123 *)
  p_t : R;                  (* number_input, line 133 *)
  button : bool             (* st.button, line 167 *)
}.

(** [min_value] and [max_value] of the number inputs and the options of
    the selectbox: what the widgets let through. *)
Definition selectbox_options : list R :=
  [50; 60; 70; 75; 80; 85; 90; 95; 99; 99.9].

Record in_range (w : widgets) : Prop := {
  esal_range : 1000 <= esal_input w <= 100000000;
  reliability_range : In (reliability_percent w) selectbox_options;
  s0_range : 0.30 <= s0 w <= 0.50;
  mr_number_range : 1000 <= mr_number w <= 50000;
  cbr_range : 1.0 <= cbr w <= 100.0;
  p_i_range : 3.0 <= p_i w <= 5.0;
  p_t_range : 1.5 <= p_t w <= 3.0
}.

(** Lines 62-73. *)
Definition z_r_dict : list (R * R) :=
  [ (50, 0.000);
    (60, -0.253);
    (70, -0.524);
    (75, -0.674);
    (80, -0.841);
    (85, -1.037);
    (90, -1.282);
    (95, -1.645);
    (99, -2.327);
    (99.9, -3.090) ].

(** Line 75. *)
Definition z_r (w : widgets) : result R :=
  getitem z_r_dict (reliability_percent w).

(** Lines 98-117. *)
Definition mr (w : widgets) : R :=
  match mr_input_type w with
  | MR_direct => mr_number w
  | MR_from_CBR => 1500 * cbr w
  end.

(** Line 142. *)
Definition delta_psi (w : widgets) : R := p_i w - p_t w.

(** ** The solve (lines 167-254) *)

(** [scipy.optimize.fsolve] is not code of this repository.  Its Python
    wrapper is short and is written out below; the MINPACK routine behind
    it stays a parameter: given the residual as a function of the unknown
    and the starting point it answers the last iterate and MINPACK's
    status (1: converged; 2: call budget [maxfev] reached; 3: [xtol] too
    small; 4, 5: no good progress), or passes on what the residual
    raised. *)
Definition minpack : Type := (R -> result R) -> R -> result (R * Z).

Definition args5 : Type := (R * R * R * R * R)%type.

(** What [fsolve] hands back with [full_output=0]: the iterate, and the
    [RuntimeWarning]s it issued on the way (they go to the warnings
    machinery, not to the caller). *)
Record solved : Type := {
  root : R;
  runtime_warnings : list Z
}.

(** Line 194: the value shown as the rounded SN. *)
Definition SN_rounded (SN_required : R) : R :=
  IZR (math_ceil (SN_required * 2)) / 2.

(** Lines 236-238: the three illustrative thicknesses. *)
Definition layer_thickness (SN_required a : R) : R :=
  (SN_required / 3) / a.

(** Lines 247-250. *)
Inductive advice : Type :=
| SN_very_high
| SN_very_low
| No_advice.

Definition advise (SN_required : R) : advice :=
  if Rlt_dec 6 SN_required then SN_very_high
  else if Rlt_dec SN_required 2 then SN_very_low
       else No_advice.

(** The computed numbers the success branch shows, before their [:.2f]
    and [:.1f] formatting.  The echo of the inputs (lines 205-226), the
    reliability colour and the labels are left out. *)
Record report : Type := {
  SN_required : R;
  SN_shown_rounded : R;
  D1 : R;
  D2 : R;
  D3 : R;
  note : advice
}.

Definition make_report (SN : R) : report :=
  {| SN_required := SN;
     SN_shown_rounded := SN_rounded SN;
     D1 := layer_thickness SN 0.44;
     D2 := layer_thickness SN 0.14;
     D3 := layer_thickness SN 0.11;
     note := advise SN |}.

(** The outcome of one run: nothing when the button is up, [st.success]
    with the report, or the [st.error] of the handler at line 252. *)
Inductive shown : Type :=
| Idle
| Success (r : report)
| Error (e : exn).

(** Line 170. *)
Definition SN_initial_guess : R := 3.0.

Section Solver.

Variable hybrd : minpack.

Definition fsolve (func : R -> R -> R -> R -> R -> R -> result R)
           (x0 : R) (args : args5) : result solved :=
  let '(a1, a2, a3, a4, a5) := args in
  res <- hybrd (fun x => func x a1 a2 a3 a4 a5) x0 ;;
  let '(x, status) := res in
  if (status =? 0)%Z then Raise (TypeError status)
  else if (status =? 1)%Z then Ok {| root := x; runtime_warnings := [] |}
  else if andb (2 <=? status)%Z (status <=? 5)%Z
       then Ok {| root := x; runtime_warnings := [status] |}
       else Raise (TypeError status).

(** Lines 171-175. *)
Definition solve (w : widgets) (zr : R) : result solved :=
  fsolve aashto_equation SN_initial_guess
         (esal_input w, zr, s0 w, delta_psi w, mr w).

(** Lines 167-254: the [try] around the solve and the report. *)
Definition on_click (w : widgets) (zr : R) : shown :=
  match solve w zr with
  | Ok s => Success (make_report (root s))
  | Raise e => Error e
  end.

(** One run of the script.  The table lookup of line 75 is outside the
    [try], so its exception ends the run. *)
Definition page (w : widgets) : result shown :=
  zr <- z_r w ;;
  if button w then Ok (on_click w zr) else Ok Idle.

End Solver.

(** The residual as [fsolve] sees it: a function of the unknown alone,
    the five [args] of line 174 filled in. *)
Definition residual_of (w : widgets) (zr : R) : R -> result R :=
  fun SN => aashto_equation SN (esal_input w) zr (s0 w) (delta_psi w) (mr w).

(** The residual with the floored numerator as a real function of
    u = SN + 1: [A] collects the terms without SN. *)
Definition floored_residual (A : R) (u : R) : R :=
  A + 9.36 * (ln u / ln 10) + (-3) / (0.40 + 1094 / Rpower u 5.19).

(** The numerator as the page documents it: the formula typeset at
    lines 20-23 divides deltaPSI by the difference 4.2 - 1.5. *)
Definition documented_numerator (delta_psi : R) : R :=
  log10 (delta_psi / (4.2 - 1.5)).

(** ** Inputs and root-finder outcomes used as test points *)

(** The worked reference: W18 = 5,000,000, reliability 90 percent,
    S0 = 0.45, CBR 5 (so MR = 7500), pI = 4.2, pT = 2.5. *)
Definition reference_widgets : widgets :=
  {| esal_input := 5000000;
     reliability_percent := 90;
     s0 := 0.45;
     mr_input_type := MR_from_CBR;
     mr_number := 7500;
     cbr := 5.0;
     p_i := 4.2;
     p_t := 2.5;
     button := true |}.

(** The same run with the widest serviceability loss the inputs allow:
    pI = 5.0, pT = 1.5. *)
Definition worn_widgets : widgets :=
  {| esal_input := 5000000;
     reliability_percent := 90;
     s0 := 0.45;
     mr_input_type := MR_from_CBR;
     mr_number := 7500;
     cbr := 5.0;
     p_i := 5.0;
     p_t := 1.5;
     button := true |}.

(** The reference with the traffic for which the initial guess SN = 3
    solves the equation exactly (about 2100 ESALs). *)
Definition root_at_guess_widgets : widgets :=
  {| esal_input :=
       Rpower 10 (-1.282 * 0.45
                  + (9.36 * log10 (3.0 + 1) - 0.20)
                  + (-3) / (0.40 + 1094 / Rpower (3.0 + 1) 5.19)
                  + (2.32 * log10 (1500 * 5.0) - 8.07));
     reliability_percent := 90;
     s0 := 0.45;
     mr_input_type := MR_from_CBR;
     mr_number := 7500;
     cbr := 5.0;
     p_i := 4.2;
     p_t := 2.5;
     button := true |}.

(** A root-finder outcome: it stops at [x] with MINPACK status [status],
    having called the residual at the starting point (as the shape check
    of [fsolve] does first). *)
Definition stopped_with (x : R) (status : Z) : minpack :=
  fun f x0 => _ <- f x0 ;; Ok (x, status).

(** The same, stopping where it started. *)
Definition stalled_at_start (status : Z) : minpack :=
  fun f x0 => _ <- f x0 ;; Ok (x0, status).

(** ** Runs that differ in the serviceability inputs only *)

(** The bounds of the two serviceability inputs (lines 125-126, 135-136). *)
Definition serviceability_in_range (w : widgets) : Prop :=
  3.0 <= p_i w <= 5.0 /\ 1.5 <= p_t w <= 3.0.

(** Every widget other than [p_i] and [p_t] holds the same value. *)
Definition same_but_serviceability (w1 w2 : widgets) : Prop :=
  esal_input w1 = esal_input w2 /\
  reliability_percent w1 = reliability_percent w2 /\
  s0 w1 = s0 w2 /\
  mr_input_type w1 = mr_input_type w2 /\
  mr_number w1 = mr_number w2 /\
  cbr w1 = cbr w2 /\
  button w1 = button w2.

(** ** The numerator policy in the spec's words

    [log10 (deltaPSI/4.2 - 1.5)] when that quantity is positive, the floor
    [log10 0.001] otherwise. *)
Definition edge_case_numerator (deltaPSI : R) : R :=
  if Rlt_dec 0 (deltaPSI / 4.2 - 1.5)
  then log10 (deltaPSI / 4.2 - 1.5)
  else log10 0.001.

(** ** The reliability colour (line 199) *)

Inductive colour : Type :=
| Green
| Yellow
| Red.

Definition reliability_color (percent : R) : colour :=
  if Rge_dec percent 90 then Green
  else if Rge_dec percent 80 then Yellow
  else Red.

(** ** The residual as a real function

    Where its logarithms are defined the residual is this function of
    u = SN + 1: [A] collects the terms without SN and [N] is the numerator
    of the third term. *)
Definition residual_in_u (A N u : R) : R :=
  A + 9.36 * (ln u / ln 10) + N / (0.40 + 1094 / Rpower u 5.19).

(** ** Two traffic levels around the initial guess *)

(** The page's default inputs with another design traffic. *)
Definition with_traffic (W18 : R) : widgets :=
  {| esal_input := W18;
     reliability_percent := 90;
     s0 := 0.45;
     mr_input_type := MR_from_CBR;
     mr_number := 7500;
     cbr := 5.0;
     p_i := 4.2;
     p_t := 2.5;
     button := true |}.

(** Every widget other than the design traffic holds the same value. *)
Definition same_but_traffic (w1 w2 : widgets) : Prop :=
  reliability_percent w1 = reliability_percent w2 /\
  s0 w1 = s0 w2 /\
  mr_input_type w1 = mr_input_type w2 /\
  mr_number w1 = mr_number w2 /\
  cbr w1 = cbr w2 /\
  p_i w1 = p_i w2 /\
  p_t w1 = p_t w2 /\
  button w1 = button w2.

(** A root-finder outcome that depends on the sign of the residual at the
    starting point: it reports convergence at [above] when the residual
    there is positive and at [below] otherwise. *)
Definition answers_by_sign (above below : R) : minpack :=
  fun f x0 =>
    v <- f x0 ;;
    if Rlt_dec 0 v then Ok (above, 1%Z) else Ok (below, 1%Z).

(** * Properties *)

(** ** Elementary facts about the partial operations *)

Lemma ln_10_pos : 0 < ln 10.
Proof.
  rewrite <- ln_1. apply ln_increasing; lra.
Qed.

Lemma log10_increasing (x y : R) : 0 < x -> x < y -> log10 x < log10 y.
Proof.
  intros Hx Hxy. unfold log10.
  apply Rmult_lt_compat_r.
  - apply Rinv_0_lt_compat, ln_10_pos.
  - now apply ln_increasing.
Qed.

Lemma log10_monotone (x y : R) : 0 < x -> x <= y -> log10 x <= log10 y.
Proof.
  intros Hx [Hlt | Heq].
  - left. now apply log10_increasing.
  - right. now rewrite Heq.
Qed.

Lemma math_log10_pos (x : R) : 0 < x -> math_log10 x = Ok (log10 x).
Proof.
  intros Hx. unfold math_log10. destruct (Rlt_dec 0 x); [reflexivity | contradiction].
Qed.

Lemma math_log10_nonpos (x : R) : x <= 0 -> math_log10 x = Raise ValueError.
Proof.
  intros Hx. unfold math_log10. destruct (Rlt_dec 0 x); [lra | reflexivity].
Qed.

Lemma math_log10_ok_iff (x : R) : is_ok (math_log10 x) = true <-> 0 < x.
Proof.
  unfold math_log10. destruct (Rlt_dec 0 x); simpl; split; intros; try easy; lra.
Qed.

Lemma float_pow_pos (x y : R) : 0 < x -> float_pow x y = Ok (Rpower x y).
Proof.
  intros Hx. unfold float_pow. destruct (Rlt_dec 0 x); [reflexivity | contradiction].
Qed.

Lemma Rpower_pos (x y : R) : 0 < Rpower x y.
Proof. unfold Rpower. apply exp_pos. Qed.

Lemma truediv_nonzero (a b : R) : b <> 0 -> truediv a b = Ok (a / b).
Proof.
  intros Hb. unfold truediv. destruct (Req_dec_T b 0); [contradiction | reflexivity].
Qed.

(** [log10 0.001] is the integer -3. *)
Lemma log10_floor_value : log10 0.001 = -3.
Proof.
  unfold log10.
  replace 0.001 with (/ (10 ^ 3)) by (simpl; lra).
  rewrite ln_Rinv by (simpl; lra).
  rewrite ln_pow by lra. simpl INR.
  pose proof ln_10_pos. field. lra.
Qed.

(** ** The residual *)

Lemma term3_numerator_value (d : R) :
  term3_numerator d = Ok (edge_case_numerator d).
Proof.
  unfold term3_numerator, edge_case_numerator.
  destruct (Rlt_dec 0 (d / 4.2 - 1.5)) as [Hpos | Hneg].
  - now apply math_log10_pos.
  - apply math_log10_pos. lra.
Qed.

Lemma term3_denominator_value (SN : R) :
  -1 < SN ->
  term3_denominator SN = Ok (0.40 + 1094 / Rpower (SN + 1) 5.19).
Proof.
  intros HSN. unfold term3_denominator.
  rewrite float_pow_pos by lra. simpl.
  rewrite truediv_nonzero; [reflexivity |].
  pose proof (Rpower_pos (SN + 1) 5.19). lra.
Qed.

Lemma term3_denominator_pos (SN : R) :
  0.40 < 0.40 + 1094 / Rpower (SN + 1) 5.19.
Proof.
  pose proof (Rpower_pos (SN + 1) 5.19) as Hp.
  assert (0 < 1094 / Rpower (SN + 1) 5.19).
  { apply Rdiv_lt_0_compat; lra. }
  lra.
Qed.

(** The value of the residual wherever its three logarithms are defined:
    the arithmetic of lines 153-164, in the source's order. *)
Lemma aashto_equation_value (SN W18 ZR S0 dpsi MR : R) :
  -1 < SN -> 0 < W18 -> 0 < MR ->
  aashto_equation SN W18 ZR S0 dpsi MR =
  Ok (ZR * S0
      + (9.36 * log10 (SN + 1) - 0.20)
      + edge_case_numerator dpsi / (0.40 + 1094 / Rpower (SN + 1) 5.19)
      + (2.32 * log10 MR - 8.07)
      - log10 W18).
Proof.
  intros HSN HW HMR. unfold aashto_equation.
  rewrite (math_log10_pos W18) by assumption. simpl.
  rewrite (math_log10_pos (SN + 1)) by lra. simpl.
  rewrite term3_numerator_value. simpl.
  rewrite term3_denominator_value by assumption. simpl.
  rewrite truediv_nonzero.
  2:{ pose proof (term3_denominator_pos SN). lra. }
  simpl. rewrite (math_log10_pos MR) by assumption. simpl.
  reflexivity.
Qed.

(** C1.  For every SN > -1, W18 > 0 and MR > 0 the residual returns
    ZR*S0 + (9.36*log10(SN+1) - 0.20) + num/(0.40 + 1094/(SN+1)^5.19)
    + (2.32*log10(MR) - 8.07) - log10(W18), where num is the numerator the
    edge-case policy fixes. *)
Theorem aashto_equation_formula (SN W18 ZR S0 deltaPSI MR : R) :
  SN > -1 -> W18 > 0 -> MR > 0 ->
  aashto_equation SN W18 ZR S0 deltaPSI MR =
  Ok (ZR * S0
      + (9.36 * log10 (SN + 1) - 0.20)
      + edge_case_numerator deltaPSI / (0.40 + 1094 / Rpower (SN + 1) 5.19)
      + (2.32 * log10 MR - 8.07)
      - log10 W18).
Proof.
  intros HSN HW HMR. apply aashto_equation_value; lra.
Qed.

Lemma aashto_equation_formula_reference :
  (3 > -1 /\ 5000000 > 0 /\ 7500 > 0) /\
  aashto_equation 3 5000000 (-1.282) 0.45 1.7 7500 =
  Ok (-1.282 * 0.45
      + (9.36 * log10 (3 + 1) - 0.20)
      + edge_case_numerator 1.7 / (0.40 + 1094 / Rpower (3 + 1) 5.19)
      + (2.32 * log10 7500 - 8.07)
      - log10 5000000).
Proof.
  split; [lra | apply aashto_equation_formula; lra].
Defined.

(** C2.  For every deltaPSI the numerator of the third term is
    log10(deltaPSI/4.2 - 1.5) when deltaPSI/4.2 - 1.5 > 0 and log10(0.001)
    when deltaPSI/4.2 - 1.5 <= 0; the logarithm of the quantity itself is
    the branch taken exactly when the quantity is positive, the floor is
    taken exactly where the unguarded logarithm would raise, and the
    expression never raises. *)
Theorem term3_numerator_policy (deltaPSI : R) :
  (deltaPSI / 4.2 - 1.5 > 0 ->
   term3_numerator deltaPSI = Ok (log10 (deltaPSI / 4.2 - 1.5))) /\
  (deltaPSI / 4.2 - 1.5 <= 0 ->
   term3_numerator deltaPSI = Ok (log10 0.001)) /\
  (term3_numerator deltaPSI = math_log10 (deltaPSI / 4.2 - 1.5) <->
   deltaPSI / 4.2 - 1.5 > 0) /\
  (term3_numerator deltaPSI = Ok (log10 0.001) /\
   math_log10 (deltaPSI / 4.2 - 1.5) = Raise ValueError <->
   deltaPSI / 4.2 - 1.5 <= 0) /\
  (forall e, term3_numerator deltaPSI <> Raise e).
Proof.
  set (q := deltaPSI / 4.2 - 1.5).
  assert (Hfloor : math_log10 0.001 = Ok (log10 0.001))
    by (apply math_log10_pos; lra).
  unfold term3_numerator. fold q.
  destruct (Rlt_dec 0 q) as [Hpos | Hneg].
  - rewrite (math_log10_pos q Hpos).
    repeat split; intros; try reflexivity; try lra; try discriminate.
    destruct H as [_ H]. discriminate H.
  - assert (Hq : q <= 0) by lra.
    rewrite (math_log10_nonpos q Hq), Hfloor.
    repeat split; intros; try reflexivity; try lra; try discriminate.
Qed.

(** ** The reliability table *)

Ltac decide_key :=
  repeat match goal with
         | |- context [Req_dec_T ?a ?b] =>
             let H := fresh "Hkey" in
             destruct (Req_dec_T a b) as [H | H];
             [ try (exfalso; lra) | try (exfalso; apply H; lra) ]
         end;
  try reflexivity.

Lemma getitem_z_r_dict_outside (k : R) :
  ~ In k selectbox_options -> getitem z_r_dict k = Raise (KeyError k).
Proof.
  intros Hout. unfold z_r_dict, getitem.
  repeat match goal with
         | |- context [Req_dec_T k ?b] =>
             destruct (Req_dec_T k b) as [Heq | _];
             [exfalso; apply Hout; rewrite Heq; simpl; tauto | ]
         end.
  reflexivity.
Qed.

Lemma getitem_z_r_dict_inside (k : R) :
  In k selectbox_options -> exists v, getitem z_r_dict k = Ok v.
Proof.
  intros Hin. simpl in Hin.
  repeat match type of Hin with
         | _ \/ _ => destruct Hin as [Hin | Hin]
         end;
    try contradiction; subst k; unfold z_r_dict, getitem;
    eexists; decide_key.
Qed.

(** C6.  The reliability lookup maps the keys 50, 60, 70, 75, 80, 85, 90,
    95, 99, 99.9 to 0.000, -0.253, -0.524, -0.674, -0.841, -1.037, -1.282,
    -1.645, -2.327, -3.090: it answers a value exactly on these keys, and
    on every other key the lookup fails (Python's KeyError, raised at line
    75 outside the try, which ends the run: the invalid-input failure of
    the script). *)
Theorem z_r_dict_lookup :
  getitem z_r_dict 50 = Ok 0.000 /\
  getitem z_r_dict 60 = Ok (-0.253) /\
  getitem z_r_dict 70 = Ok (-0.524) /\
  getitem z_r_dict 75 = Ok (-0.674) /\
  getitem z_r_dict 80 = Ok (-0.841) /\
  getitem z_r_dict 85 = Ok (-1.037) /\
  getitem z_r_dict 90 = Ok (-1.282) /\
  getitem z_r_dict 95 = Ok (-1.645) /\
  getitem z_r_dict 99 = Ok (-2.327) /\
  getitem z_r_dict 99.9 = Ok (-3.090) /\
  (forall k, In k selectbox_options <-> is_ok (getitem z_r_dict k) = true) /\
  (forall k, ~ In k selectbox_options ->
             getitem z_r_dict k = Raise (KeyError k)) /\
  (forall hybrd w, ~ In (reliability_percent w) selectbox_options ->
             page hybrd w = Raise (KeyError (reliability_percent w))).
Proof.
  repeat match goal with
         | |- getitem _ _ = _ /\ _ =>
             split; [unfold z_r_dict, getitem; decide_key | ]
         end.
  split; [| split].
  - intros k. split.
    + intros Hin. destruct (getitem_z_r_dict_inside k Hin) as [v Hv].
      now rewrite Hv.
    + intros Hok.
      destruct (in_dec Req_dec_T k selectbox_options) as [Hin | Hout]; [assumption |].
      rewrite (getitem_z_r_dict_outside k Hout) in Hok. discriminate Hok.
  - exact getitem_z_r_dict_outside.
  - intros hybrd w Hout. unfold page, z_r.
    now rewrite (getitem_z_r_dict_outside _ Hout).
Qed.

(** ** Rounding up to the next half *)

Lemma Zceil_least (x : R) (k : Z) : x <= IZR k -> (Zceil x <= k)%Z.
Proof.
  intros Hx. destruct (Zceil_bound x) as [Hlo _].
  assert (Hlt : IZR (Zceil x) < IZR (k + 1)) by (rewrite plus_IZR; lra).
  apply lt_IZR in Hlt. lia.
Qed.

(** C7.  Round-up law: the rounded value the page shows is ceil(SN*2)/2;
    it is at least SN, exceeds SN by less than 0.5, and is the least
    multiple of 0.5 that is at least SN. *)
Theorem SN_rounded_law (SN : R) :
  SN_shown_rounded (make_report SN) = IZR (Zceil (SN * 2)) / 2 /\
  SN_rounded SN = IZR (Zceil (SN * 2)) / 2 /\
  SN_rounded SN >= SN /\
  SN_rounded SN - SN < 0.5 /\
  (exists k : Z, SN_rounded SN = IZR k * 0.5) /\
  (forall k : Z, SN <= IZR k * 0.5 -> SN_rounded SN <= IZR k * 0.5).
Proof.
  unfold make_report, SN_rounded, math_ceil. simpl.
  destruct (Zceil_bound (SN * 2)) as [Hlo Hhi].
  repeat split; try reflexivity; try lra.
  - exists (Zceil (SN * 2)). lra.
  - intros k Hk.
    assert (Hle : (Zceil (SN * 2) <= k)%Z) by (apply Zceil_least; lra).
    apply IZR_le in Hle. lra.
Qed.

(** ** CBR conversion *)

(** C8.  On the CBR branch of the radio the resilient modulus handed to
    the solver is 1500 * CBR for every CBR > 0, with no rounding or
    clamping step in between. *)
Theorem mr_from_cbr_exact (w : widgets) :
  mr_input_type w = MR_from_CBR -> cbr w > 0 -> mr w = 1500 * cbr w.
Proof.
  intros Hbranch _. unfold mr. now rewrite Hbranch.
Qed.

Lemma mr_from_cbr_exact_reference :
  (mr_input_type reference_widgets = MR_from_CBR /\ cbr reference_widgets > 0) /\
  mr reference_widgets = 1500 * cbr reference_widgets.
Proof.
  split.
  - split; [reflexivity | simpl; lra].
  - apply mr_from_cbr_exact; [reflexivity | simpl; lra].
Defined.

(** ** Totality of the residual *)

(** C10.  For every SN > -1, W18 > 0, MR > 0 and every deltaPSI, the
    values at or below zero included, the residual returns a real number
    and raises nothing; for deltaPSI <= 0 it is the value computed with the
    floored numerator -3, not a rejection of the input. *)
Theorem aashto_equation_total (SN W18 ZR S0 deltaPSI MR : R) :
  SN > -1 -> W18 > 0 -> MR > 0 ->
  (exists v : R, aashto_equation SN W18 ZR S0 deltaPSI MR = Ok v) /\
  (forall e, aashto_equation SN W18 ZR S0 deltaPSI MR <> Raise e) /\
  (deltaPSI <= 0 ->
   aashto_equation SN W18 ZR S0 deltaPSI MR =
   Ok (ZR * S0
       + (9.36 * log10 (SN + 1) - 0.20)
       + (-3) / (0.40 + 1094 / Rpower (SN + 1) 5.19)
       + (2.32 * log10 MR - 8.07)
       - log10 W18)).
Proof.
  intros HSN HW HMR.
  rewrite aashto_equation_value by lra.
  split; [eexists; reflexivity | split; [discriminate |]].
  intros Hd. unfold edge_case_numerator.
  destruct (Rlt_dec 0 (deltaPSI / 4.2 - 1.5)); [lra |].
  now rewrite log10_floor_value.
Qed.

Lemma aashto_equation_total_degenerate :
  (3 > -1 /\ 5000000 > 0 /\ 7500 > 0) /\
  (exists v : R, aashto_equation 3 5000000 (-1.282) 0.45 (-1) 7500 = Ok v) /\
  (forall e, aashto_equation 3 5000000 (-1.282) 0.45 (-1) 7500 <> Raise e) /\
  (-1 <= 0 ->
   aashto_equation 3 5000000 (-1.282) 0.45 (-1) 7500 =
   Ok (-1.282 * 0.45
       + (9.36 * log10 (3 + 1) - 0.20)
       + (-3) / (0.40 + 1094 / Rpower (3 + 1) 5.19)
       + (2.32 * log10 7500 - 8.07)
       - log10 5000000)).
Proof.
  split; [lra | apply aashto_equation_total; lra].
Defined.

(** ** The solve *)

Lemma fsolve_unfold (hybrd : minpack) (w : widgets) (zr : R) :
  solve hybrd w zr =
  (res <- hybrd (residual_of w zr) SN_initial_guess ;;
   let '(x, status) := res in
   if (status =? 0)%Z then Raise (TypeError status)
   else if (status =? 1)%Z then Ok {| root := x; runtime_warnings := [] |}
   else if andb (2 <=? status)%Z (status <=? 5)%Z
        then Ok {| root := x; runtime_warnings := [status] |}
        else Raise (TypeError status)).
Proof. reflexivity. Qed.

Lemma solve_not_converged (hybrd : minpack) (w : widgets) (zr x : R) (status : Z) :
  hybrd (residual_of w zr) SN_initial_guess = Ok (x, status) ->
  (2 <= status <= 5)%Z ->
  solve hybrd w zr = Ok {| root := x; runtime_warnings := [status] |}.
Proof.
  intros Hk Hst. rewrite fsolve_unfold, Hk. simpl.
  destruct (Z.eqb_spec status 0); [lia |].
  destruct (Z.eqb_spec status 1); [lia |].
  destruct (Z.leb_spec 2 status); [| lia].
  destruct (Z.leb_spec status 5); [| lia].
  reflexivity.
Qed.

Lemma on_click_error_iff (hybrd : minpack) (w : widgets) (zr : R) (e : exn) :
  on_click hybrd w zr = Error e <-> solve hybrd w zr = Raise e.
Proof.
  unfold on_click. destruct (solve hybrd w zr); split; intros H;
    try discriminate; now inversion H.
Qed.

Lemma stopped_with_ok (x : R) (status : Z) (f : R -> result R) (x0 v : R) :
  f x0 = Ok v -> stopped_with x status f x0 = Ok (x, status).
Proof. intros Hf. unfold stopped_with. now rewrite Hf. Qed.

Lemma stalled_at_start_ok (status : Z) (f : R -> result R) (x0 v : R) :
  f x0 = Ok v -> stalled_at_start status f x0 = Ok (x0, status).
Proof. intros Hf. unfold stalled_at_start. now rewrite Hf. Qed.

Lemma residual_of_reference_defined :
  residual_of reference_widgets (-1.282) SN_initial_guess =
  Ok (-1.282 * 0.45
      + (9.36 * log10 (3.0 + 1) - 0.20)
      + edge_case_numerator (4.2 - 2.5) / (0.40 + 1094 / Rpower (3.0 + 1) 5.19)
      + (2.32 * log10 (1500 * 5.0) - 8.07)
      - log10 5000000).
Proof.
  unfold residual_of, SN_initial_guess, reference_widgets, mr, delta_psi. simpl.
  apply aashto_equation_value; lra.
Qed.

(** C4, as the code has it.  When the root-finder stops without
    convergence (MINPACK status 2 to 5: call budget reached, tolerance too
    small, no good progress), [fsolve] only records a RuntimeWarning and
    the handler reports the last iterate as a success, whatever its sign
    and residual.  The handler shows an error exactly when the solve
    raised an exception. *)
Theorem nonconvergence_reported_as_success
        (hybrd : minpack) (w : widgets) (zr x : R) (status : Z) :
  hybrd (residual_of w zr) SN_initial_guess = Ok (x, status) ->
  (2 <= status <= 5)%Z ->
  solve hybrd w zr = Ok {| root := x; runtime_warnings := [status] |} /\
  on_click hybrd w zr = Success (make_report x) /\
  (forall e, on_click hybrd w zr = Error e <-> solve hybrd w zr = Raise e).
Proof.
  intros Hk Hst.
  pose proof (solve_not_converged hybrd w zr x status Hk Hst) as Hs.
  split; [exact Hs | split].
  - unfold on_click. now rewrite Hs.
  - intros e. apply on_click_error_iff.
Qed.

Lemma nonconvergence_reported_as_success_reference :
  (stalled_at_start 5 (residual_of reference_widgets (-1.282)) SN_initial_guess
   = Ok (SN_initial_guess, 5%Z) /\ (2 <= 5 <= 5)%Z) /\
  solve (stalled_at_start 5) reference_widgets (-1.282)
  = Ok {| root := SN_initial_guess; runtime_warnings := [5%Z] |} /\
  on_click (stalled_at_start 5) reference_widgets (-1.282)
  = Success (make_report SN_initial_guess) /\
  (forall e, on_click (stalled_at_start 5) reference_widgets (-1.282) = Error e <->
             solve (stalled_at_start 5) reference_widgets (-1.282) = Raise e).
Proof.
  assert (Hk : stalled_at_start 5 (residual_of reference_widgets (-1.282))
                                SN_initial_guess = Ok (SN_initial_guess, 5%Z)).
  { eapply stalled_at_start_ok, residual_of_reference_defined. }
  split.
  - split; [exact Hk | lia].
  - apply nonconvergence_reported_as_success; [exact Hk | lia].
Defined.

(** ** The serviceability inputs *)

Lemma term3_numerator_floor (d : R) :
  d <= 3.5 -> term3_numerator d = Ok (-3).
Proof.
  intros Hd. unfold term3_numerator.
  destruct (Rlt_dec 0 (d / 4.2 - 1.5)); [lra |].
  rewrite math_log10_pos by lra. now rewrite log10_floor_value.
Qed.

Lemma delta_psi_in_range (w : widgets) :
  serviceability_in_range w -> 0 <= delta_psi w <= 3.5.
Proof.
  unfold serviceability_in_range, delta_psi. lra.
Qed.

Lemma residual_of_floor (w1 w2 : widgets) (zr : R) :
  serviceability_in_range w1 -> serviceability_in_range w2 ->
  same_but_serviceability w1 w2 ->
  residual_of w1 zr = residual_of w2 zr.
Proof.
  intros H1 H2 (He & _ & Hs & Ht & Hm & Hc & _).
  apply delta_psi_in_range in H1, H2.
  apply functional_extensionality. intros SN.
  unfold residual_of, aashto_equation, mr.
  rewrite He, Hs, Ht, Hm, Hc.
  rewrite (term3_numerator_floor (delta_psi w1)) by lra.
  rewrite (term3_numerator_floor (delta_psi w2)) by lra.
  reflexivity.
Qed.

(** C9.  For inputs within the declared ranges of pI and pT the loss
    deltaPSI = pI - pT is at most 3.5, the condition deltaPSI/4.2 - 1.5 > 0
    is false, the numerator is the floor log10(0.001) = -3, and two runs
    that differ only in pI and pT hand the same residual to the solver and
    get the same solved SN and the same computed numbers on the page. *)
Theorem serviceability_has_no_effect
        (hybrd : minpack) (w1 w2 : widgets) :
  serviceability_in_range w1 -> serviceability_in_range w2 ->
  same_but_serviceability w1 w2 ->
  (delta_psi w1 <= 3.5 /\ ~ delta_psi w1 / 4.2 - 1.5 > 0 /\
   term3_numerator (delta_psi w1) = Ok (-3)) /\
  (delta_psi w2 <= 3.5 /\ ~ delta_psi w2 / 4.2 - 1.5 > 0 /\
   term3_numerator (delta_psi w2) = Ok (-3)) /\
  (forall zr, residual_of w1 zr = residual_of w2 zr) /\
  (forall zr, solve hybrd w1 zr = solve hybrd w2 zr) /\
  page hybrd w1 = page hybrd w2.
Proof.
  intros H1 H2 Hsame.
  pose proof (delta_psi_in_range w1 H1) as Hd1.
  pose proof (delta_psi_in_range w2 H2) as Hd2.
  assert (Hres : forall zr, residual_of w1 zr = residual_of w2 zr)
    by (intros zr; now apply residual_of_floor).
  assert (Hsolve : forall zr, solve hybrd w1 zr = solve hybrd w2 zr).
  { intros zr. rewrite !fsolve_unfold. now rewrite Hres. }
  repeat split; try lra; try (apply term3_numerator_floor; lra); auto.
  destruct Hsame as (_ & Hr & _ & _ & _ & _ & Hb).
  unfold page, z_r, on_click. rewrite Hr, Hb.
  destruct (getitem z_r_dict (reliability_percent w2)) as [zr | e]; simpl;
    [| reflexivity].
  now rewrite Hsolve.
Qed.

Lemma serviceability_has_no_effect_reference :
  (serviceability_in_range reference_widgets /\
   serviceability_in_range worn_widgets /\
   same_but_serviceability reference_widgets worn_widgets) /\
  (delta_psi reference_widgets <= 3.5 /\
   ~ delta_psi reference_widgets / 4.2 - 1.5 > 0 /\
   term3_numerator (delta_psi reference_widgets) = Ok (-3)) /\
  (delta_psi worn_widgets <= 3.5 /\
   ~ delta_psi worn_widgets / 4.2 - 1.5 > 0 /\
   term3_numerator (delta_psi worn_widgets) = Ok (-3)) /\
  (forall zr, residual_of reference_widgets zr = residual_of worn_widgets zr) /\
  (forall zr, solve (stalled_at_start 5) reference_widgets zr
              = solve (stalled_at_start 5) worn_widgets zr) /\
  page (stalled_at_start 5) reference_widgets
  = page (stalled_at_start 5) worn_widgets.
Proof.
  assert (Hr : serviceability_in_range reference_widgets)
    by (unfold serviceability_in_range; simpl; lra).
  assert (Hw : serviceability_in_range worn_widgets)
    by (unfold serviceability_in_range; simpl; lra).
  assert (Hs : same_but_serviceability reference_widgets worn_widgets)
    by (unfold same_but_serviceability; simpl; tauto).
  split; [tauto |].
  exact (serviceability_has_no_effect (stalled_at_start 5)
           reference_widgets worn_widgets Hr Hw Hs).
Defined.

(** ** Further properties of the residual and the report *)

(** X1.  At a fixed SN the residual falls strictly as the design traffic W18
    grows (lines 153 and 164: W18 enters only through - log10(W18)). *)
Theorem residual_decreasing_in_traffic (SN W18 W18' ZR S0 dpsi MR : R) :
  -1 < SN -> 0 < MR -> 0 < W18 -> W18 < W18' ->
  exists v v' : R,
    aashto_equation SN W18 ZR S0 dpsi MR = Ok v /\
    aashto_equation SN W18' ZR S0 dpsi MR = Ok v' /\
    v' < v.
Proof.
  intros HSN HMR HW Hlt.
  rewrite !aashto_equation_value by lra.
  do 2 eexists. split; [reflexivity | split; [reflexivity |]].
  pose proof (log10_increasing W18 W18' HW Hlt). lra.
Qed.

Lemma residual_decreasing_in_traffic_reference :
  (-1 < 3 /\ 0 < 7500 /\ 0 < 5000000 /\ 5000000 < 6000000) /\
  exists v v' : R,
    aashto_equation 3 5000000 (-1.282) 0.45 1.7 7500 = Ok v /\
    aashto_equation 3 6000000 (-1.282) 0.45 1.7 7500 = Ok v' /\
    v' < v.
Proof.
  split; [lra | apply residual_decreasing_in_traffic; lra].
Defined.

(** The residual raises exactly when one of its three logarithms leaves
    its domain (W18 <= 0, SN <= -1 or MR <= 0), and then it is a
    ValueError: the power and the two divisions never raise. *)
Lemma aashto_equation_raises (SN W18 ZR S0 dpsi MR : R) :
  (aashto_equation SN W18 ZR S0 dpsi MR = Raise ValueError <->
   W18 <= 0 \/ SN <= -1 \/ MR <= 0) /\
  (forall e, aashto_equation SN W18 ZR S0 dpsi MR = Raise e -> e = ValueError).
Proof.
  destruct (Rlt_dec 0 W18) as [HW | HW].
  2:{ unfold aashto_equation. rewrite (math_log10_nonpos W18) by lra. simpl.
      split; [split; [lra | reflexivity] | intros e He; now inversion He]. }
  destruct (Rlt_dec (-1) SN) as [HSN | HSN].
  2:{ unfold aashto_equation. rewrite (math_log10_pos W18) by lra. simpl.
      rewrite (math_log10_nonpos (SN + 1)) by lra. simpl.
      split; [split; [lra | reflexivity] | intros e He; now inversion He]. }
  destruct (Rlt_dec 0 MR) as [HMR | HMR].
  - rewrite aashto_equation_value by lra.
    split; [split; [discriminate | lra] | discriminate].
  - unfold aashto_equation. rewrite (math_log10_pos W18) by lra. simpl.
    rewrite (math_log10_pos (SN + 1)) by lra. simpl.
    rewrite term3_numerator_value. simpl.
    rewrite term3_denominator_value by lra. simpl.
    rewrite truediv_nonzero.
    2:{ pose proof (term3_denominator_pos SN). lra. }
    simpl. rewrite (math_log10_nonpos MR) by lra. simpl.
    split; [split; [lra | reflexivity] | intros e He; now inversion He].
Qed.

(** ** Rational bounds on the logarithms

    [log10 x <= p/q] follows from [x^q <= 10^p], a comparison of
    integers; the constants of the worked reference are bounded this
    way. *)

Lemma log10_10 : log10 10 = 1.
Proof. unfold log10. pose proof ln_10_pos. field. lra. Qed.

Lemma log10_mult (x y : R) :
  0 < x -> 0 < y -> log10 (x * y) = log10 x + log10 y.
Proof.
  intros Hx Hy. unfold log10. rewrite ln_mult by assumption.
  pose proof ln_10_pos. field. lra.
Qed.

Lemma log10_pow (x : R) (n : nat) : 0 < x -> log10 (x ^ n) = INR n * log10 x.
Proof.
  intros Hx. unfold log10. rewrite ln_pow by assumption.
  pose proof ln_10_pos. field. lra.
Qed.

Lemma log10_pow10 (p : nat) : log10 (10 ^ p) = INR p.
Proof. rewrite log10_pow by lra. rewrite log10_10. lra. Qed.

Lemma log10_upper (x : R) (p q : nat) :
  0 < x -> x ^ q <= 10 ^ p -> INR q * log10 x <= INR p.
Proof.
  intros Hx Hpow.
  rewrite <- log10_pow, <- log10_pow10 by assumption.
  apply log10_monotone; [now apply pow_lt | assumption].
Qed.

Lemma log10_lower (x : R) (p q : nat) :
  0 < x -> 10 ^ p <= x ^ q -> INR p <= INR q * log10 x.
Proof.
  intros Hx Hpow.
  rewrite <- log10_pow, <- log10_pow10 by assumption.
  apply log10_monotone; [apply pow_lt; lra | assumption].
Qed.

Ltac log10_bound lem x p q :=
  let H := fresh "H" in
  pose proof (lem x p q) as H;
  rewrite !INR_IZR_INZ in H; simpl in H; lra.

Lemma log10_2_lower : 31 / 103 <= log10 2.
Proof. log10_bound log10_lower 2 31%nat 103%nat. Qed.

Lemma log10_2_upper : log10 2 <= 28 / 93.
Proof. log10_bound log10_upper 2 28%nat 93%nat. Qed.

Lemma log10_3_lower : 10 / 21 <= log10 3.
Proof. log10_bound log10_lower 3 10%nat 21%nat. Qed.

Lemma log10_3_upper : log10 3 <= 21 / 44.
Proof. log10_bound log10_upper 3 21%nat 44%nat. Qed.

Lemma log10_31_upper : log10 31 <= 3 / 2.
Proof. log10_bound log10_upper 31 3%nat 2%nat. Qed.

Lemma log10_5 : log10 5 = 1 - log10 2.
Proof.
  rewrite <- log10_10. replace 10 with (5 * 2) at 1 by lra.
  rewrite log10_mult by lra. lra.
Qed.

Lemma log10_12 : log10 12 = 2 * log10 2 + log10 3.
Proof.
  replace 12 with (2 * (2 * 3)) by lra.
  rewrite !log10_mult by lra. lra.
Qed.

Lemma log10_30 : log10 30 = 1 + log10 3.
Proof.
  replace 30 with (10 * 3) by lra.
  rewrite log10_mult by lra. rewrite log10_10. lra.
Qed.

Lemma log10_7500 : log10 7500 = log10 3 - 2 * log10 2 + 4.
Proof.
  assert (H : log10 (7500 * (2 * 2)) = log10 (3 * (10 * (10 * (10 * 10))))).
  { f_equal. lra. }
  rewrite !log10_mult in H by lra. rewrite log10_10 in H. lra.
Qed.

Lemma log10_5000000 : log10 5000000 = 7 - log10 2.
Proof.
  assert (H : log10 (5000000 * 2)
              = log10 (10 * (10 * (10 * (10 * (10 * (10 * 10))))))).
  { f_equal. lra. }
  rewrite !log10_mult in H by lra. rewrite log10_10 in H. lra.
Qed.

(** ** Bounds on the third term *)

Lemma Rpower_above_pow5 (u : R) : 1 <= u -> u ^ 5 <= Rpower u 5.19.
Proof.
  intros Hu.
  rewrite <- Rpower_pow by lra.
  apply Rle_Rpower; [assumption | simpl; lra].
Qed.

Lemma denominator_upper (c u : R) :
  1 <= c -> c <= u ->
  0.40 + 1094 / Rpower u 5.19 <= 0.40 + 1094 / c ^ 5.
Proof.
  intros Hc Hcu.
  assert (Hc5 : 0 < c ^ 5) by (apply pow_lt; lra).
  assert (Hle : c ^ 5 <= Rpower u 5.19).
  { apply Rle_trans with (u ^ 5).
    - apply pow_incr. lra.
    - apply Rpower_above_pow5. lra. }
  apply Rplus_le_compat_l.
  unfold Rdiv. apply Rmult_le_compat_l; [lra |].
  apply Rinv_le_contravar; assumption.
Qed.

Lemma third_term_upper (c u D : R) :
  1 <= c -> c <= u -> 0.40 + 1094 / c ^ 5 <= D ->
  (-3) / (0.40 + 1094 / Rpower u 5.19) <= (-3) / D.
Proof.
  intros Hc Hcu HD.
  pose proof (denominator_upper c u Hc Hcu) as Hden.
  pose proof (term3_denominator_pos (u - 1)) as Hpos.
  replace (u - 1 + 1) with u in Hpos by lra.
  set (d := 0.40 + 1094 / Rpower u 5.19) in *.
  assert (Hinv : / D <= / d) by (apply Rinv_le_contravar; lra).
  unfold Rdiv. lra.
Qed.

Lemma third_term_lower (u D : R) :
  0 < D -> D <= 0.40 + 1094 / Rpower u 5.19 ->
  (-3) / D <= (-3) / (0.40 + 1094 / Rpower u 5.19).
Proof.
  intros HD Hle.
  set (d := 0.40 + 1094 / Rpower u 5.19) in *.
  assert (Hinv : / d <= / D) by (apply Rinv_le_contravar; lra).
  unfold Rdiv. lra.
Qed.

Lemma third_term_negative (u : R) :
  (-3) / (0.40 + 1094 / Rpower u 5.19) < 0.
Proof.
  pose proof (term3_denominator_pos (u - 1)) as Hpos.
  replace (u - 1 + 1) with u in Hpos by lra.
  set (d := 0.40 + 1094 / Rpower u 5.19) in *.
  assert (0 < / d) by (apply Rinv_0_lt_compat; lra).
  unfold Rdiv. lra.
Qed.

(** ** The worked reference *)

Lemma z_r_reference : z_r reference_widgets = Ok (-1.282).
Proof.
  unfold z_r, reference_widgets, z_r_dict, getitem. simpl. decide_key.
Qed.

Lemma residual_of_reference_value (SN : R) :
  -1 < SN ->
  residual_of reference_widgets (-1.282) SN =
  Ok (-1.282 * 0.45
      + (9.36 * log10 (SN + 1) - 0.20)
      + (-3) / (0.40 + 1094 / Rpower (SN + 1) 5.19)
      + (2.32 * log10 7500 - 8.07)
      - log10 5000000).
Proof.
  intros HSN.
  unfold residual_of, reference_widgets, mr, delta_psi. simpl.
  rewrite aashto_equation_value by lra.
  unfold edge_case_numerator.
  destruct (Rlt_dec 0 ((4.2 - 2.5) / 4.2 - 1.5)); [lra |].
  rewrite log10_floor_value.
  replace (1500 * 5.0) with 7500 by lra.
  reflexivity.
Qed.

(** With the floored numerator the residual of the worked reference stays
    below -0.01 on the whole range -1 < SN <= 30. *)
Lemma reference_residual_bound (u : R) :
  0 < u -> u <= 31 ->
  -1.282 * 0.45 + (9.36 * log10 u - 0.20)
  + (-3) / (0.40 + 1094 / Rpower u 5.19)
  + (2.32 * log10 7500 - 8.07) - log10 5000000 < -0.01.
Proof.
  intros Hu0 Hu.
  rewrite log10_7500, log10_5000000.
  pose proof log10_2_lower as Ha. pose proof log10_2_upper as Ha'.
  pose proof log10_3_upper as Hb.
  destruct (Rle_dec u 5) as [H5 | H5].
  { pose proof (third_term_negative u).
    pose proof (log10_monotone u 5 Hu0 H5) as HL. rewrite log10_5 in HL. lra. }
  destruct (Rle_dec u 12) as [H12 | H12].
  { pose proof (log10_monotone u 12 Hu0 H12) as HL. rewrite log10_12 in HL.
    assert (H3 : (-3) / (0.40 + 1094 / Rpower u 5.19) <= -3.99).
    { etransitivity;
        [apply (third_term_upper 5 u (0.40 + 1094 / 5 ^ 5)); lra | lra]. }
    lra. }
  destruct (Rle_dec u 30) as [H30 | H30].
  { pose proof (log10_monotone u 30 Hu0 H30) as HL. rewrite log10_30 in HL.
    assert (H3 : (-3) / (0.40 + 1094 / Rpower u 5.19) <= -7.41).
    { etransitivity;
        [apply (third_term_upper 12 u (0.40 + 1094 / 12 ^ 5)); lra | lra]. }
    lra. }
  pose proof (log10_monotone u 31 Hu0 Hu) as HL.
  pose proof log10_31_upper.
  assert (H3 : (-3) / (0.40 + 1094 / Rpower u 5.19) <= -7.499).
  { etransitivity;
      [apply (third_term_upper 30 u (0.40 + 1094 / 30 ^ 5)); lra | lra]. }
  lra.
Qed.

Lemma reference_residual_negative (SN : R) :
  -1 < SN -> SN <= 30 ->
  exists v : R,
    residual_of reference_widgets (-1.282) SN = Ok v /\ v < -0.01.
Proof.
  intros Hlo Hhi. rewrite residual_of_reference_value by assumption.
  eexists. split; [reflexivity |].
  apply reference_residual_bound; lra.
Qed.

Lemma reference_residual_positive_at_31 :
  exists v : R,
    residual_of reference_widgets (-1.282) 31 = Ok v /\ 0.01 < v.
Proof.
  rewrite residual_of_reference_value by lra.
  eexists. split; [reflexivity |].
  rewrite log10_7500, log10_5000000.
  replace (31 + 1) with (2 ^ 5) by lra.
  rewrite log10_pow by lra.
  rewrite INR_IZR_INZ. simpl IZR.
  pose proof log10_2_lower as Ha. pose proof log10_2_upper as Ha'.
  pose proof log10_3_lower as Hb.
  assert (H3 : -7.5 <= (-3) / (0.40 + 1094 / Rpower (2 ^ 5) 5.19)).
  { etransitivity; [| apply (third_term_lower (2 ^ 5) 0.40); [lra |]].
    - lra.
    - pose proof (term3_denominator_pos (2 ^ 5 - 1)) as Hpos.
      replace (2 ^ 5 - 1 + 1) with (2 ^ 5) in Hpos by lra. lra. }
  lra.
Qed.

(** *** A root between 30 and 31 *)

Lemma continuity_pt_ln (u : R) : 0 < u -> continuity_pt ln u.
Proof.
  intros Hu. apply derivable_continuous_pt.
  exists (/ u). now apply derivable_pt_lim_ln.
Qed.

Lemma continuity_pt_Rpower (y u : R) :
  0 < u -> continuity_pt (fun t => Rpower t y) u.
Proof.
  intros Hu. apply derivable_continuous_pt.
  exists (y * Rpower u (y - 1)). now apply derivable_pt_lim_power.
Qed.

Lemma continuity_pt_fct_cte (c u : R) : continuity_pt (fct_cte c) u.
Proof. apply continuity_pt_const. intros x y. reflexivity. Qed.

Lemma continuity_pt_floored_residual (A u : R) :
  0 < u -> continuity_pt (floored_residual A) u.
Proof.
  intros Hu.
  pose proof (Rpower_pos u 5.19) as Hpos.
  pose proof ln_10_pos as Hln10.
  assert (Hden : continuity_pt (fun t => 0.40 + 1094 / Rpower t 5.19) u).
  { apply (continuity_pt_plus (fct_cte 0.40) (fun t => 1094 / Rpower t 5.19));
      [apply continuity_pt_fct_cte |].
    apply (continuity_pt_div (fct_cte 1094) (fun t => Rpower t 5.19));
      [apply continuity_pt_fct_cte | now apply continuity_pt_Rpower | lra]. }
  unfold floored_residual.
  apply (continuity_pt_plus (fun t => A + 9.36 * (ln t / ln 10))
                            (fun t => (-3) / (0.40 + 1094 / Rpower t 5.19))).
  - apply (continuity_pt_plus (fct_cte A) (fun t => 9.36 * (ln t / ln 10)));
      [apply continuity_pt_fct_cte |].
    apply (continuity_pt_mult (fct_cte 9.36) (fun t => ln t / ln 10));
      [apply continuity_pt_fct_cte |].
    apply (continuity_pt_div ln (fct_cte (ln 10)));
      [now apply continuity_pt_ln | apply continuity_pt_fct_cte |].
    unfold fct_cte. lra.
  - apply (continuity_pt_div (fct_cte (-3))
                             (fun t => 0.40 + 1094 / Rpower t 5.19));
      [apply continuity_pt_fct_cte | exact Hden |].
    pose proof (term3_denominator_pos (u - 1)) as Hd.
    replace (u - 1 + 1) with u in Hd by lra. lra.
Qed.

Lemma residual_of_reference_floored (SN : R) :
  -1 < SN ->
  residual_of reference_widgets (-1.282) SN =
  Ok (floored_residual
        (-1.282 * 0.45 - 0.20 + (2.32 * log10 7500 - 8.07) - log10 5000000)
        (SN + 1)).
Proof.
  intros HSN. rewrite residual_of_reference_value by assumption.
  f_equal. unfold floored_residual, log10. lra.
Qed.

Lemma reference_root_exists :
  exists SN : R,
    30 < SN < 31 /\ residual_of reference_widgets (-1.282) SN = Ok 0.
Proof.
  set (A := -1.282 * 0.45 - 0.20 + (2.32 * log10 7500 - 8.07) - log10 5000000).
  destruct (reference_residual_negative 30) as [v0 [Hv0 Hneg]]; [lra | lra |].
  destruct reference_residual_positive_at_31 as [v1 [Hv1 Hpos]].
  rewrite residual_of_reference_floored in Hv0, Hv1 by lra.
  fold A in Hv0, Hv1.
  injection Hv0 as Hv0. injection Hv1 as Hv1.
  destruct (IVT_interv (floored_residual A) (30 + 1) (31 + 1)) as [z [Hz Hroot]].
  - intros a Ha. apply continuity_pt_floored_residual. lra.
  - lra.
  - lra.
  - lra.
  - exists (z - 1).
    assert (Hz30 : z <> 30 + 1) by (intros ->; lra).
    assert (Hz31 : z <> 31 + 1) by (intros ->; lra).
    split; [lra |].
    rewrite residual_of_reference_floored by lra. fold A.
    replace (z - 1 + 1) with z by lra. now rewrite Hroot.
Qed.

(** X4.  For the worked reference (W18 = 5,000,000, ZR = -1.282, S0 = 0.45,
    deltaPSI = 1.7, MR = 7500) the residual as coded is below -0.01 at
    every SN in (-1, 30], above 0.01 at SN = 31, and has an exact root
    strictly between 30 and 31: every SN with |f(SN)| < 1e-4 lies beyond
    30, and such an SN exists. *)
Theorem reference_residual_sign :
  z_r reference_widgets = Ok (-1.282) /\
  (forall SN, -1 < SN -> SN <= 30 ->
     exists v : R,
       residual_of reference_widgets (-1.282) SN = Ok v /\ v < -0.01) /\
  (exists v : R,
     residual_of reference_widgets (-1.282) 31 = Ok v /\ 0.01 < v) /\
  (exists SN : R,
     30 < SN < 31 /\ residual_of reference_widgets (-1.282) SN = Ok 0).
Proof.
  split; [exact z_r_reference | split; [| split]].
  - exact reference_residual_negative.
  - exact reference_residual_positive_at_31.
  - exact reference_root_exists.
Qed.

(** ** Non-convergence is not an error *)

(** C4 as the spec words it fails.  A root-finder that reports its call
    budget exhausted (status 2) at a negative iterate is not turned into a
    failure: the page shows that iterate as the Structural Number.  The
    same holds for one that makes no progress from the initial guess
    (status 5) on the worked reference, where the residual is below -0.01:
    the non-converged 3.0 is reported as the result. *)
Lemma budget_exhausted_is_not_an_error :
  ~ (forall (hybrd : minpack) (w : widgets) (zr x : R) (status : Z),
        hybrd (residual_of w zr) SN_initial_guess = Ok (x, status) ->
        status <> 1%Z ->
        exists e, on_click hybrd w zr = Error e) /\
  (stopped_with (-0.5) 2 (residual_of reference_widgets (-1.282)) SN_initial_guess
   = Ok (-0.5, 2%Z) /\
   -0.5 < 0 /\
   on_click (stopped_with (-0.5) 2) reference_widgets (-1.282)
   = Success (make_report (-0.5))) /\
  (stalled_at_start 5 (residual_of reference_widgets (-1.282)) SN_initial_guess
   = Ok (SN_initial_guess, 5%Z) /\
   (exists v, residual_of reference_widgets (-1.282) SN_initial_guess = Ok v /\
              v < -0.01) /\
   on_click (stalled_at_start 5) reference_widgets (-1.282)
   = Success (make_report SN_initial_guess)).
Proof.
  assert (Hk : stopped_with (-0.5) 2 (residual_of reference_widgets (-1.282))
                            SN_initial_guess = Ok (-0.5, 2%Z)).
  { eapply stopped_with_ok, residual_of_reference_defined. }
  assert (Hrun : on_click (stopped_with (-0.5) 2) reference_widgets (-1.282)
                 = Success (make_report (-0.5))).
  { unfold on_click.
    now rewrite (solve_not_converged _ _ _ _ _ Hk) by lia. }
  assert (Hk' : stalled_at_start 5 (residual_of reference_widgets (-1.282))
                                 SN_initial_guess = Ok (SN_initial_guess, 5%Z)).
  { eapply stalled_at_start_ok, residual_of_reference_defined. }
  assert (Hrun' : on_click (stalled_at_start 5) reference_widgets (-1.282)
                  = Success (make_report SN_initial_guess)).
  { unfold on_click.
    now rewrite (solve_not_converged _ _ _ _ _ Hk') by lia. }
  split; [| split].
  - intros Hclaim.
    destruct (Hclaim _ _ _ _ _ Hk) as [e He]; [lia |].
    rewrite Hrun in He. discriminate He.
  - split; [exact Hk | split; [lra | exact Hrun]].
  - split; [exact Hk' | split; [| exact Hrun']].
    apply reference_residual_negative; unfold SN_initial_guess; lra.
Qed.

(** ** The residual is not increasing in SN *)

Lemma Rpower_3_fifth : Rpower 3 0.2 <= 1.25.
Proof.
  set (y := Rpower 3 0.2).
  assert (Hy : 0 < y) by apply Rpower_pos.
  assert (Hy5 : y ^ 5 = 3).
  { rewrite <- Rpower_pow by assumption. unfold y.
    rewrite Rpower_mult.
    replace (0.2 * INR 5) with 1 by (simpl; lra).
    apply Rpower_1. lra. }
  destruct (Rle_dec y 1.25) as [Hle | Hgt]; [assumption | exfalso].
  assert (Hpow : 1.25 ^ 5 <= y ^ 5) by (apply pow_incr; lra).
  rewrite Hy5 in Hpow. lra.
Qed.

Lemma Rpower_3_upper : Rpower 3 5.19 <= 303.75.
Proof.
  apply Rle_trans with (Rpower 3 (INR 5 + 0.2)).
  - apply Rle_Rpower; [lra | simpl; lra].
  - rewrite Rpower_plus, Rpower_pow by lra.
    pose proof Rpower_3_fifth. lra.
Qed.

Lemma third_term_at_2 :
  -0.75 <= (-3) / (0.40 + 1094 / Rpower (2 + 1) 5.19).
Proof.
  replace (2 + 1) with 3 by lra.
  pose proof Rpower_3_upper as Hup.
  pose proof (Rpower_pos 3 5.19) as Hpos.
  assert (Hden : 4 <= 0.40 + 1094 / Rpower 3 5.19).
  { assert (1094 / 303.75 <= 1094 / Rpower 3 5.19).
    { unfold Rdiv. apply Rmult_le_compat_l; [lra |].
      apply Rinv_le_contravar; lra. }
    lra. }
  etransitivity; [| apply (third_term_lower 3 4); lra]. lra.
Qed.

Lemma third_term_at_3 :
  (-3) / (0.40 + 1094 / Rpower (3 + 1) 5.19) <= -2.04.
Proof.
  replace (3 + 1) with 4 by lra.
  etransitivity;
    [apply (third_term_upper 4 4 (0.40 + 1094 / 4 ^ 5)); lra | lra].
Qed.

(** X2.  With the floored numerator (every deltaPSI <= 6.3, so every value the
    inputs allow) the residual at SN = 3, the initial guess, is lower than
    at SN = 2 by more than 0.1, whatever W18, ZR, S0 and MR are: the
    residual as coded does not increase with SN. *)
Theorem residual_not_increasing_in_SN (W18 ZR S0 dpsi MR : R) :
  0 < W18 -> 0 < MR -> dpsi <= 6.3 ->
  exists v2 v3 : R,
    aashto_equation 2 W18 ZR S0 dpsi MR = Ok v2 /\
    aashto_equation 3 W18 ZR S0 dpsi MR = Ok v3 /\
    v3 + 0.1 < v2.
Proof.
  intros HW HMR Hd.
  rewrite !aashto_equation_value by lra.
  do 2 eexists. split; [reflexivity | split; [reflexivity |]].
  unfold edge_case_numerator.
  destruct (Rlt_dec 0 (dpsi / 4.2 - 1.5)); [lra |].
  rewrite log10_floor_value.
  pose proof third_term_at_2. pose proof third_term_at_3.
  replace (2 + 1) with 3 in * by lra.
  replace (3 + 1) with (2 * 2) in * by lra.
  rewrite log10_mult by lra.
  pose proof log10_2_upper. pose proof log10_3_lower.
  lra.
Qed.

Lemma residual_not_increasing_in_SN_reference :
  (0 < 5000000 /\ 0 < 7500 /\ 1.7 <= 6.3) /\
  exists v2 v3 : R,
    aashto_equation 2 5000000 (-1.282) 0.45 1.7 7500 = Ok v2 /\
    aashto_equation 3 5000000 (-1.282) 0.45 1.7 7500 = Ok v3 /\
    v3 + 0.1 < v2.
Proof.
  split; [lra | apply residual_not_increasing_in_SN; lra].
Defined.

(** ** Exact roots under growing traffic *)

Lemma log10_Rpower_10 (t : R) : log10 (Rpower 10 t) = t.
Proof.
  unfold log10, Rpower. rewrite ln_exp.
  pose proof ln_10_pos. field. lra.
Qed.

(** The part of the residual that does not depend on W18. *)
Lemma residual_root_at (SN ZR S0 dpsi MR : R) :
  -1 < SN -> 0 < MR ->
  aashto_equation SN
    (Rpower 10 (ZR * S0
                + (9.36 * log10 (SN + 1) - 0.20)
                + edge_case_numerator dpsi
                  / (0.40 + 1094 / Rpower (SN + 1) 5.19)
                + (2.32 * log10 MR - 8.07)))
    ZR S0 dpsi MR = Ok 0.
Proof.
  intros HSN HMR.
  rewrite aashto_equation_value by (try apply Rpower_pos; lra).
  rewrite log10_Rpower_10. f_equal. lra.
Qed.

(** X3.  Exact roots of the residual are not ordered by traffic: for every ZR,
    S0, MR > 0 and deltaPSI <= 6.3 there are W18 < W18' such that SN = 3
    (the initial guess) is an exact root for W18 and the smaller SN = 2 is
    an exact root for the larger W18'. *)
Theorem roots_not_ordered_by_traffic (ZR S0 dpsi MR : R) :
  0 < MR -> dpsi <= 6.3 ->
  exists W18 W18' : R,
    0 < W18 /\ W18 < W18' /\
    aashto_equation 3 W18 ZR S0 dpsi MR = Ok 0 /\
    aashto_equation 2 W18' ZR S0 dpsi MR = Ok 0.
Proof.
  intros HMR Hd.
  eexists. eexists.
  split; [apply Rpower_pos | split; [| split]].
  2: apply residual_root_at; lra.
  2: apply residual_root_at; lra.
  apply Rpower_lt; [lra |].
  unfold edge_case_numerator.
  destruct (Rlt_dec 0 (dpsi / 4.2 - 1.5)); [lra |].
  rewrite log10_floor_value.
  pose proof third_term_at_2. pose proof third_term_at_3.
  replace (2 + 1) with 3 in * by lra.
  replace (3 + 1) with (2 * 2) in * by lra.
  rewrite log10_mult by lra.
  pose proof log10_2_upper. pose proof log10_3_lower.
  lra.
Qed.

Lemma roots_not_ordered_by_traffic_reference :
  (0 < 7500 /\ 1.7 <= 6.3) /\
  exists W18 W18' : R,
    0 < W18 /\ W18 < W18' /\
    aashto_equation 3 W18 (-1.282) 0.45 1.7 7500 = Ok 0 /\
    aashto_equation 2 W18' (-1.282) 0.45 1.7 7500 = Ok 0.
Proof.
  split; [lra | apply roots_not_ordered_by_traffic; lra].
Defined.

(** ** Inputs within the widget ranges *)

Lemma in_range_reference : in_range reference_widgets.
Proof.
  constructor; simpl; lra.
Qed.

Lemma mr_in_range_positive (w : widgets) : in_range w -> 1000 <= mr w.
Proof.
  intros [_ _ _ Hm Hc _ _]. unfold mr.
  destruct (mr_input_type w); lra.
Qed.

(** X6.  For widget values within their ranges the residual handed to the
    solver is defined at every SN > -1 and raises exactly at the iterates
    SN <= -1, where it is the ValueError of log10(SN + 1). *)
Theorem in_range_residual_domain (w : widgets) (zr SN : R) :
  in_range w ->
  (-1 < SN -> exists v, residual_of w zr SN = Ok v) /\
  (residual_of w zr SN = Raise ValueError <-> SN <= -1) /\
  (forall e, residual_of w zr SN = Raise e -> e = ValueError).
Proof.
  intros Hr.
  pose proof (mr_in_range_positive w Hr) as Hm.
  destruct Hr as [He _ _ _ _ _ _].
  unfold residual_of.
  destruct (aashto_equation_raises SN (esal_input w) zr (s0 w) (delta_psi w) (mr w))
    as [Hiff Honly].
  split; [| split].
  - intros HSN. rewrite aashto_equation_value by lra. eexists; reflexivity.
  - rewrite Hiff. split; [intros [H | [H | H]]; lra | tauto].
  - exact Honly.
Qed.

Lemma in_range_residual_domain_reference :
  in_range reference_widgets /\
  (-1 < 3 -> exists v, residual_of reference_widgets (-1.282) 3 = Ok v) /\
  (residual_of reference_widgets (-1.282) 3 = Raise ValueError <-> 3 <= -1) /\
  (forall e, residual_of reference_widgets (-1.282) 3 = Raise e -> e = ValueError).
Proof.
  split; [exact in_range_reference |].
  apply in_range_residual_domain. exact in_range_reference.
Defined.

(** ** The converged solve *)

Lemma residual_root_at_guess :
  residual_of root_at_guess_widgets (-1.282) SN_initial_guess = Ok 0.
Proof.
  unfold residual_of, root_at_guess_widgets, SN_initial_guess, mr, delta_psi.
  simpl.
  replace (-3) with (edge_case_numerator (4.2 - 2.5)).
  - apply residual_root_at; lra.
  - unfold edge_case_numerator.
    destruct (Rlt_dec 0 ((4.2 - 2.5) / 4.2 - 1.5)); [lra |].
    apply log10_floor_value.
Qed.

(** X7.  When the root-finder reports convergence (status 1) the handler
    shows its iterate as the required SN, with no warning; a status
    outside 1..5 makes [fsolve] raise TypeError, which the handler
    shows as an error. *)
Theorem converged_solve_reported
        (hybrd : minpack) (w : widgets) (zr x : R) (status : Z) :
  hybrd (residual_of w zr) SN_initial_guess = Ok (x, status) ->
  (status = 1%Z ->
   solve hybrd w zr = Ok {| root := x; runtime_warnings := [] |} /\
   on_click hybrd w zr = Success (make_report x) /\
   SN_required (make_report x) = x) /\
  ((status < 1 \/ 5 < status)%Z ->
   on_click hybrd w zr = Error (TypeError status)).
Proof.
  intros Hk. unfold on_click. rewrite fsolve_unfold, Hk. simpl. split.
  - intros ->. simpl. repeat split.
  - intros Hst.
    destruct (Z.eqb_spec status 0); [reflexivity |].
    destruct (Z.eqb_spec status 1); [lia |].
    destruct (Z.leb_spec 2 status); simpl; [| reflexivity].
    destruct (Z.leb_spec status 5); [lia | reflexivity].
Qed.

Lemma converged_solve_reported_at_root :
  stalled_at_start 1 (residual_of root_at_guess_widgets (-1.282)) SN_initial_guess
  = Ok (SN_initial_guess, 1%Z) /\
  (1%Z = 1%Z ->
   solve (stalled_at_start 1) root_at_guess_widgets (-1.282)
   = Ok {| root := SN_initial_guess; runtime_warnings := [] |} /\
   on_click (stalled_at_start 1) root_at_guess_widgets (-1.282)
   = Success (make_report SN_initial_guess) /\
   SN_required (make_report SN_initial_guess) = SN_initial_guess) /\
  ((1 < 1 \/ 5 < 1)%Z ->
   on_click (stalled_at_start 1) root_at_guess_widgets (-1.282)
   = Error (TypeError 1)).
Proof.
  assert (Hk : stalled_at_start 1 (residual_of root_at_guess_widgets (-1.282))
                                SN_initial_guess = Ok (SN_initial_guess, 1%Z)).
  { eapply stalled_at_start_ok, residual_root_at_guess. }
  split; [exact Hk |].
  exact (converged_solve_reported _ _ _ _ _ Hk).
Defined.

(** ** The reliability table as a whole *)

Lemma getitem_z_r_dict_bounds (k v : R) :
  getitem z_r_dict k = Ok v ->
  In k selectbox_options /\ -3.090 <= v <= 0 /\ (v = 0 <-> k = 50).
Proof.
  unfold z_r_dict, getitem, selectbox_options.
  repeat match goal with
         | |- context [Req_dec_T k ?b] =>
             let H := fresh "Hkey" in
             destruct (Req_dec_T k b) as [H | H];
             [ intros Hv; injection Hv as <-; rewrite H; simpl;
               split; [lra | split; [lra | split; intros; lra]] | ]
         end.
  discriminate.
Qed.

Lemma getitem_z_r_dict_order (k1 k2 v1 v2 : R) :
  getitem z_r_dict k1 = Ok v1 -> getitem z_r_dict k2 = Ok v2 ->
  k1 < k2 -> v2 < v1.
Proof.
  unfold z_r_dict, getitem.
  repeat match goal with
         | |- context [Req_dec_T k1 ?b] =>
             let H := fresh "Hkey" in
             destruct (Req_dec_T k1 b) as [H | H];
             [ intros Hv1; injection Hv1 as <-; rewrite H;
               repeat match goal with
                      | |- context [Req_dec_T k2 ?c] =>
                          let H2 := fresh "Hkey" in
                          destruct (Req_dec_T k2 c) as [H2 | H2];
                          [ intros Hv2; injection Hv2 as <-; rewrite H2;
                            intros; lra | ]
                      end; discriminate | ]
         end.
  discriminate.
Qed.

(** X9.  The reliability table has no repeated key, every ZR it answers
    lies in [-3.090, 0] and is 0 only at 50 percent, and ZR falls strictly
    as the reliability grows: of two listed keys the larger one has the
    smaller (more negative) ZR. *)
Theorem z_r_dict_decreasing :
  NoDup (map fst z_r_dict) /\
  map fst z_r_dict = selectbox_options /\
  (forall k v, getitem z_r_dict k = Ok v ->
               -3.090 <= v <= 0 /\ (v = 0 <-> k = 50)) /\
  (forall k1 k2 v1 v2,
      getitem z_r_dict k1 = Ok v1 -> getitem z_r_dict k2 = Ok v2 ->
      k1 < k2 -> v2 < v1).
Proof.
  split; [| split; [reflexivity | split]].
  - simpl. repeat (constructor; [simpl; intros Hin; lra |]). constructor.
  - intros k v Hv. now apply getitem_z_r_dict_bounds in Hv.
  - exact getitem_z_r_dict_order.
Qed.

(** ** The reliability colour *)

(** X10.  On the keys the selectbox offers, the colour shown beside the
    reliability is fixed by the ZR in use: green exactly when ZR is at
    most -1.282, yellow exactly when it lies in (-1.282, -0.841], red
    exactly when it is above -0.841. *)
Theorem reliability_color_by_z_r (k v : R) :
  getitem z_r_dict k = Ok v ->
  (reliability_color k = Green <-> v <= -1.282) /\
  (reliability_color k = Yellow <-> -1.282 < v <= -0.841) /\
  (reliability_color k = Red <-> -0.841 < v).
Proof.
  unfold z_r_dict, getitem, reliability_color.
  repeat match goal with
         | |- context [Req_dec_T k ?b] =>
             let H := fresh "Hkey" in
             destruct (Req_dec_T k b) as [H | H];
             [ intros Hv; injection Hv as <-; rewrite H;
               repeat match goal with
                      | |- context [Rge_dec ?a ?c] =>
                          destruct (Rge_dec a c); try lra
                      end;
               repeat split; intros; try reflexivity; try discriminate; lra | ]
         end.
  discriminate.
Qed.

Lemma reliability_color_by_z_r_reference :
  getitem z_r_dict 90 = Ok (-1.282) /\
  (reliability_color 90 = Green <-> -1.282 <= -1.282) /\
  (reliability_color 90 = Yellow <-> -1.282 < -1.282 <= -0.841) /\
  (reliability_color 90 = Red <-> -0.841 < -1.282).
Proof.
  assert (Hv : getitem z_r_dict 90 = Ok (-1.282))
    by (unfold z_r_dict, getitem; decide_key).
  split; [exact Hv | exact (reliability_color_by_z_r 90 (-1.282) Hv)].
Defined.

(** ** Runs on inputs within the widget ranges *)

Lemma z_r_in_range (w : widgets) :
  in_range w -> exists zr, z_r w = Ok zr /\ -3.090 <= zr <= 0.
Proof.
  intros [_ Hrel _ _ _ _ _].
  destruct (getitem_z_r_dict_inside _ Hrel) as [zr Hzr].
  exists zr. split; [exact Hzr |].
  now apply getitem_z_r_dict_bounds in Hzr.
Qed.

(** X11.  For widget values within their ranges the quantities handed to
    the solver are bounded: W18 in [1000, 1e8], ZR in [-3.090, 0] (the
    lookup does not fail), S0 in [0.30, 0.50], so ZR*S0 in [-1.545, 0];
    deltaPSI in [0, 3.5]; MR in [1000, 50000] when typed in and in
    [1500, 150000] when converted from CBR. *)
Theorem solver_arguments_in_range (w : widgets) :
  in_range w ->
  1000 <= esal_input w <= 100000000 /\
  (exists zr, z_r w = Ok zr /\ -3.090 <= zr <= 0 /\ -1.545 <= zr * s0 w <= 0) /\
  0 <= delta_psi w <= 3.5 /\
  (mr_input_type w = MR_direct -> 1000 <= mr w <= 50000) /\
  (mr_input_type w = MR_from_CBR -> 1500 <= mr w <= 150000).
Proof.
  intros Hr.
  destruct (z_r_in_range w Hr) as [zr [Hzr Hb]].
  destruct Hr as [He _ Hs Hm Hc Hpi Hpt].
  split; [exact He | split; [| split; [| split]]].
  - exists zr. split; [exact Hzr | split; [exact Hb | nra]].
  - unfold delta_psi. lra.
  - intros Hd. unfold mr. rewrite Hd. lra.
  - intros Hd. unfold mr. rewrite Hd. lra.
Qed.

Lemma solver_arguments_in_range_reference :
  in_range reference_widgets /\
  1000 <= esal_input reference_widgets <= 100000000 /\
  (exists zr, z_r reference_widgets = Ok zr /\ -3.090 <= zr <= 0 /\
              -1.545 <= zr * s0 reference_widgets <= 0) /\
  0 <= delta_psi reference_widgets <= 3.5 /\
  (mr_input_type reference_widgets = MR_direct ->
   1000 <= mr reference_widgets <= 50000) /\
  (mr_input_type reference_widgets = MR_from_CBR ->
   1500 <= mr reference_widgets <= 150000).
Proof.
  split; [exact in_range_reference |].
  apply solver_arguments_in_range. exact in_range_reference.
Defined.

(** X12.  For widget values within their ranges one run of the script
    never ends in an uncaught exception, whatever the root-finder does:
    with the button up nothing is computed, and with the button down the
    page shows either a success report or the error of the handler. *)
Theorem page_never_crashes_in_range (hybrd : minpack) (w : widgets) :
  in_range w ->
  exists zr,
    z_r w = Ok zr /\
    (button w = false -> page hybrd w = Ok Idle) /\
    (button w = true ->
     page hybrd w = Ok (on_click hybrd w zr) /\
     ((exists x, on_click hybrd w zr = Success (make_report x)) \/
      (exists e, on_click hybrd w zr = Error e))).
Proof.
  intros Hr. destruct (z_r_in_range w Hr) as [zr [Hzr _]].
  exists zr. split; [exact Hzr |].
  unfold page. rewrite Hzr. simpl. split; intros Hb; rewrite Hb.
  - reflexivity.
  - split; [reflexivity |].
    unfold on_click. destruct (solve hybrd w zr) as [s | e].
    + left. now exists (root s).
    + right. now exists e.
Qed.

Lemma page_never_crashes_in_range_reference :
  in_range reference_widgets /\
  exists zr,
    z_r reference_widgets = Ok zr /\
    (button reference_widgets = false ->
     page (stalled_at_start 5) reference_widgets = Ok Idle) /\
    (button reference_widgets = true ->
     page (stalled_at_start 5) reference_widgets
     = Ok (on_click (stalled_at_start 5) reference_widgets zr) /\
     ((exists x, on_click (stalled_at_start 5) reference_widgets zr
                 = Success (make_report x)) \/
      (exists e, on_click (stalled_at_start 5) reference_widgets zr = Error e))).
Proof.
  split; [exact in_range_reference |].
  apply page_never_crashes_in_range. exact in_range_reference.
Defined.

(** ** More on the rounded SN *)

Lemma Zceil_IZR (k : Z) : Zceil (IZR k) = k.
Proof. apply Zceil_eq. lra. Qed.

Lemma SN_rounded_half (k : Z) : SN_rounded (IZR k / 2) = IZR k / 2.
Proof.
  unfold SN_rounded, math_ceil.
  replace (IZR k / 2 * 2) with (IZR k) by lra.
  now rewrite Zceil_IZR.
Qed.

(** X13.  Rounding up to the next half is monotone and idempotent, leaves
    exactly the multiples of 0.5 unchanged, and commutes with adding a
    multiple of 0.5. *)
Theorem SN_rounded_algebra (x y : R) (n : Z) :
  (x <= y -> SN_rounded x <= SN_rounded y) /\
  SN_rounded (SN_rounded x) = SN_rounded x /\
  (SN_rounded x = x <-> exists k : Z, x = IZR k / 2) /\
  SN_rounded (x + IZR n / 2) = SN_rounded x + IZR n / 2.
Proof.
  split; [| split; [| split]].
  - intros Hxy. unfold SN_rounded, math_ceil.
    assert (Hle : (Zceil (x * 2) <= Zceil (y * 2))%Z) by (apply Zceil_le; lra).
    apply IZR_le in Hle. lra.
  - unfold SN_rounded at 2. apply SN_rounded_half.
  - split.
    + intros Hfix. exists (math_ceil (x * 2)).
      unfold SN_rounded in Hfix. lra.
    + intros [k ->]. apply SN_rounded_half.
  - unfold SN_rounded, math_ceil.
    replace ((x + IZR n / 2) * 2) with (x * 2 + IZR n) by lra.
    rewrite Zceil_addz, plus_IZR. lra.
Qed.

(** ** The report *)

(** X8.  The three thicknesses are computed from the unrounded SN: each
    layer carries a third of it, for a positive SN they are positive and
    grow from surface to subbase, for a negative SN (which the handler
    does not reject) all three are negative, and the structural number the
    layers add up to falls short of the rounded SN shown beside them by
    less than 0.5. *)
Theorem layer_thicknesses_shape (SN : R) :
  (0.44 * D1 (make_report SN) = SN / 3 /\
   0.14 * D2 (make_report SN) = SN / 3 /\
   0.11 * D3 (make_report SN) = SN / 3) /\
  (0 < SN ->
   0 < D1 (make_report SN) /\
   D1 (make_report SN) < D2 (make_report SN) /\
   D2 (make_report SN) < D3 (make_report SN)) /\
  (SN < 0 ->
   D1 (make_report SN) < 0 /\ D2 (make_report SN) < 0 /\
   D3 (make_report SN) < 0) /\
  0 <= SN_shown_rounded (make_report SN)
       - (0.44 * D1 (make_report SN) + 0.14 * D2 (make_report SN)
          + 0.11 * D3 (make_report SN)) < 0.5.
Proof.
  unfold make_report, layer_thickness, SN_rounded, math_ceil. simpl.
  destruct (Zceil_bound (SN * 2)) as [Hlo Hhi].
  repeat split; intros; lra.
Qed.

(** X14.  The note under the report: "very high" exactly for SN > 6,
    "very low" exactly for SN < 2 (so for every negative SN), none exactly
    on [2, 6]; a report without a note shows a rounded SN in [2, 6], and a
    rounded SN above 6 or below 2 always comes with its note. *)
Theorem advice_thresholds (SN : R) :
  (note (make_report SN) = SN_very_high <-> 6 < SN) /\
  (note (make_report SN) = SN_very_low <-> SN < 2) /\
  (note (make_report SN) = No_advice <-> 2 <= SN <= 6) /\
  (note (make_report SN) = No_advice ->
   2 <= SN_shown_rounded (make_report SN) <= 6) /\
  (6 < SN_shown_rounded (make_report SN) ->
   note (make_report SN) = SN_very_high) /\
  (SN_shown_rounded (make_report SN) < 2 ->
   note (make_report SN) = SN_very_low).
Proof.
  unfold make_report, advise, SN_rounded, math_ceil. simpl.
  destruct (Zceil_bound (SN * 2)) as [Hlo Hhi].
  assert (Hup : SN <= 6 -> IZR (Zceil (SN * 2)) / 2 <= 6).
  { intros H6.
    assert (Hle : (Zceil (SN * 2) <= 12)%Z) by (apply Zceil_least; lra).
    apply IZR_le in Hle. lra. }
  destruct (Rlt_dec 6 SN) as [H6 | H6];
    [| destruct (Rlt_dec SN 2) as [H2 | H2]];
    repeat split; intros; try reflexivity; try discriminate; lra.
Qed.

(** ** How the residual depends on its arguments *)

Lemma aashto_equation_undefined (SN W18 ZR S0 dpsi MR : R) :
  W18 <= 0 \/ SN <= -1 \/ MR <= 0 ->
  aashto_equation SN W18 ZR S0 dpsi MR = Raise ValueError.
Proof.
  intros H. now apply (aashto_equation_raises SN W18 ZR S0 dpsi MR).
Qed.

(** X15.  At a fixed SN the residual rises strictly with the subgrade
    modulus MR, which enters only through 2.32*log10(MR). *)
Theorem residual_increasing_in_modulus (SN W18 ZR S0 dpsi MR MR' : R) :
  -1 < SN -> 0 < W18 -> 0 < MR -> MR < MR' ->
  exists v v' : R,
    aashto_equation SN W18 ZR S0 dpsi MR = Ok v /\
    aashto_equation SN W18 ZR S0 dpsi MR' = Ok v' /\
    v < v'.
Proof.
  intros HSN HW HMR Hlt.
  rewrite !aashto_equation_value by lra.
  do 2 eexists. split; [reflexivity | split; [reflexivity |]].
  pose proof (log10_increasing MR MR' HMR Hlt). lra.
Qed.

Lemma residual_increasing_in_modulus_reference :
  (-1 < 3 /\ 0 < 5000000 /\ 0 < 7500 /\ 7500 < 9000) /\
  exists v v' : R,
    aashto_equation 3 5000000 (-1.282) 0.45 1.7 7500 = Ok v /\
    aashto_equation 3 5000000 (-1.282) 0.45 1.7 9000 = Ok v' /\
    v < v'.
Proof.
  split; [lra | apply residual_increasing_in_modulus; lra].
Defined.

Lemma log10_Rpower (c y : R) : log10 (Rpower c y) = y * log10 c.
Proof.
  unfold log10. rewrite ln_Rpower.
  pose proof ln_10_pos. field. lra.
Qed.

(** X16.  Traffic and modulus trade off at the exponent 2.32: scaling MR
    by c > 0 and W18 by c^2.32 leaves the residual unchanged at every SN,
    the domain error at SN <= -1 included. *)
Theorem residual_traffic_modulus_tradeoff (SN W18 ZR S0 dpsi MR c : R) :
  0 < W18 -> 0 < MR -> 0 < c ->
  aashto_equation SN (W18 * Rpower c 2.32) ZR S0 dpsi (MR * c)
  = aashto_equation SN W18 ZR S0 dpsi MR.
Proof.
  intros HW HMR Hc.
  pose proof (Rpower_pos c 2.32) as Hp.
  assert (HW' : 0 < W18 * Rpower c 2.32) by (apply Rmult_lt_0_compat; lra).
  assert (HMR' : 0 < MR * c) by (apply Rmult_lt_0_compat; lra).
  destruct (Rlt_dec (-1) SN) as [HSN | HSN].
  - rewrite !aashto_equation_value by lra.
    rewrite !log10_mult by lra. rewrite log10_Rpower.
    f_equal. lra.
  - rewrite !aashto_equation_undefined by lra. reflexivity.
Qed.

Lemma residual_traffic_modulus_tradeoff_reference :
  (0 < 5000000 /\ 0 < 7500 /\ 0 < 2) /\
  aashto_equation 3 (5000000 * Rpower 2 2.32) (-1.282) 0.45 1.7 (7500 * 2)
  = aashto_equation 3 5000000 (-1.282) 0.45 1.7 7500.
Proof.
  split; [lra | apply residual_traffic_modulus_tradeoff; lra].
Defined.

(** X17.  Reliability enters only as the product ZR*S0.  At 50 percent
    (ZR = 0) the standard deviation S0 has no effect on the residual; for
    S0 > 0 a higher listed reliability gives a strictly lower residual at
    every SN where it is defined. *)
Theorem residual_decreasing_in_reliability
        (SN W18 S0 S0' dpsi MR k1 k2 v1 v2 : R) :
  getitem z_r_dict k1 = Ok v1 -> getitem z_r_dict k2 = Ok v2 -> k1 < k2 ->
  aashto_equation SN W18 0 S0 dpsi MR = aashto_equation SN W18 0 S0' dpsi MR /\
  (-1 < SN -> 0 < W18 -> 0 < MR -> 0 < S0 ->
   exists r1 r2 : R,
     aashto_equation SN W18 v1 S0 dpsi MR = Ok r1 /\
     aashto_equation SN W18 v2 S0 dpsi MR = Ok r2 /\
     r2 < r1).
Proof.
  intros H1 H2 Hk. split.
  - unfold aashto_equation.
    replace (0 * S0) with (0 * S0') by lra. reflexivity.
  - intros HSN HW HMR HS.
    rewrite !aashto_equation_value by lra.
    do 2 eexists. split; [reflexivity | split; [reflexivity |]].
    pose proof (getitem_z_r_dict_order k1 k2 v1 v2 H1 H2 Hk) as Hv.
    nra.
Qed.

Lemma residual_decreasing_in_reliability_reference :
  (getitem z_r_dict 90 = Ok (-1.282) /\ getitem z_r_dict 95 = Ok (-1.645) /\
   90 < 95) /\
  aashto_equation 3 5000000 0 0.45 1.7 7500
  = aashto_equation 3 5000000 0 0.30 1.7 7500 /\
  (-1 < 3 -> 0 < 5000000 -> 0 < 7500 -> 0 < 0.45 ->
   exists r1 r2 : R,
     aashto_equation 3 5000000 (-1.282) 0.45 1.7 7500 = Ok r1 /\
     aashto_equation 3 5000000 (-1.645) 0.45 1.7 7500 = Ok r2 /\
     r2 < r1).
Proof.
  assert (H1 : getitem z_r_dict 90 = Ok (-1.282))
    by (unfold z_r_dict, getitem; decide_key).
  assert (H2 : getitem z_r_dict 95 = Ok (-1.645))
    by (unfold z_r_dict, getitem; decide_key).
  split; [split; [exact H1 | split; [exact H2 | lra]] |].
  apply (residual_decreasing_in_reliability 3 5000000 0.45 0.30 1.7 7500
           90 95 (-1.282) (-1.645) H1 H2). lra.
Defined.

(** ** The coded numerator against the documented one *)

(** X5.  For every deltaPSI above 0.0027 the numerator line 157 computes
    is strictly below the numerator of the formula the page documents at
    lines 20-23, log10(deltaPSI / (4.2 - 1.5)); the two agree only at
    deltaPSI = 0.0027, and below it the coded floor -3 is the larger. *)
Theorem coded_numerator_below_documented (d : R) :
  0 < d ->
  exists n : R,
    term3_numerator d = Ok n /\
    (0.0027 < d -> n < documented_numerator d) /\
    (d = 0.0027 -> n = documented_numerator d) /\
    (d < 0.0027 -> documented_numerator d < n).
Proof.
  intros Hd. rewrite term3_numerator_value. eexists. split; [reflexivity |].
  unfold edge_case_numerator, documented_numerator.
  destruct (Rlt_dec 0 (d / 4.2 - 1.5)) as [Hq | Hq].
  - split; [| split]; intros H; try lra.
    apply log10_increasing; lra.
  - split; [| split]; intros H.
    + apply log10_increasing; lra.
    + f_equal. lra.
    + apply log10_increasing; [| lra].
      apply Rdiv_lt_0_compat; lra.
Qed.

Lemma coded_numerator_below_documented_reference :
  0 < 1.7 /\
  exists n : R,
    term3_numerator 1.7 = Ok n /\
    (0.0027 < 1.7 -> n < documented_numerator 1.7) /\
    (1.7 = 0.0027 -> n = documented_numerator 1.7) /\
    (1.7 < 0.0027 -> documented_numerator 1.7 < n).
Proof.
  split; [lra | apply coded_numerator_below_documented; lra].
Defined.

(** ** The equation always has a solution *)

Lemma residual_in_u_value (SN W18 ZR S0 dpsi MR : R) :
  -1 < SN -> 0 < W18 -> 0 < MR ->
  aashto_equation SN W18 ZR S0 dpsi MR =
  Ok (residual_in_u (ZR * S0 - 0.20 + (2.32 * log10 MR - 8.07) - log10 W18)
                    (edge_case_numerator dpsi) (SN + 1)).
Proof.
  intros HSN HW HMR. rewrite aashto_equation_value by assumption.
  f_equal. unfold residual_in_u, log10. lra.
Qed.

Lemma continuity_pt_residual_in_u (A N u : R) :
  0 < u -> continuity_pt (residual_in_u A N) u.
Proof.
  intros Hu.
  pose proof (Rpower_pos u 5.19) as Hpos.
  pose proof ln_10_pos as Hln10.
  unfold residual_in_u.
  apply (continuity_pt_plus (fun t => A + 9.36 * (ln t / ln 10))
                            (fun t => N / (0.40 + 1094 / Rpower t 5.19))).
  - apply (continuity_pt_plus (fct_cte A) (fun t => 9.36 * (ln t / ln 10)));
      [apply continuity_pt_fct_cte |].
    apply (continuity_pt_mult (fct_cte 9.36) (fun t => ln t / ln 10));
      [apply continuity_pt_fct_cte |].
    apply (continuity_pt_div ln (fct_cte (ln 10)));
      [now apply continuity_pt_ln | apply continuity_pt_fct_cte |].
    unfold fct_cte. lra.
  - apply (continuity_pt_div (fct_cte N)
                             (fun t => 0.40 + 1094 / Rpower t 5.19));
      [apply continuity_pt_fct_cte | |].
    + apply (continuity_pt_plus (fct_cte 0.40)
                                (fun t => 1094 / Rpower t 5.19));
        [apply continuity_pt_fct_cte |].
      apply (continuity_pt_div (fct_cte 1094) (fun t => Rpower t 5.19));
        [apply continuity_pt_fct_cte | now apply continuity_pt_Rpower | lra].
    + pose proof (term3_denominator_pos (u - 1)) as Hd.
      replace (u - 1 + 1) with u in Hd by lra. lra.
Qed.

(** The third term is bounded by 2.5 times the size of its numerator. *)
Lemma third_term_bounded (N u : R) :
  - (2.5 * Rabs N) <= N / (0.40 + 1094 / Rpower u 5.19) <= 2.5 * Rabs N.
Proof.
  pose proof (term3_denominator_pos (u - 1)) as Hd.
  replace (u - 1 + 1) with u in Hd by lra.
  set (d := 0.40 + 1094 / Rpower u 5.19) in *.
  assert (Hinv : 0 < / d) by (apply Rinv_0_lt_compat; lra).
  assert (Hinv' : / d <= 2.5).
  { replace 2.5 with (/ 0.40) by lra. apply Rinv_le_contravar; lra. }
  unfold Rdiv.
  destruct (Rle_dec 0 N) as [HN | HN].
  - rewrite Rabs_right by lra. nra.
  - rewrite Rabs_left by lra. nra.
Qed.

Lemma residual_in_u_at_power (A N t : R) :
  A + 9.36 * t - 2.5 * Rabs N <= residual_in_u A N (Rpower 10 t)
  <= A + 9.36 * t + 2.5 * Rabs N.
Proof.
  unfold residual_in_u.
  pose proof (third_term_bounded N (Rpower 10 t)) as Hb.
  pose proof (log10_Rpower_10 t) as Hl. unfold log10 in Hl. rewrite Hl.
  lra.
Qed.

(** X18.  For every W18 > 0 and MR > 0, and every ZR, S0 and deltaPSI,
    the equation the solver is given has a solution: there is an SN > -1
    at which the residual is exactly 0. *)
Theorem residual_has_a_root (W18 ZR S0 dpsi MR : R) :
  0 < W18 -> 0 < MR ->
  exists SN : R, -1 < SN /\ aashto_equation SN W18 ZR S0 dpsi MR = Ok 0.
Proof.
  intros HW HMR.
  set (A := ZR * S0 - 0.20 + (2.32 * log10 MR - 8.07) - log10 W18).
  set (N := edge_case_numerator dpsi).
  set (B := 2.5 * Rabs N).
  assert (HB : 0 <= B) by (unfold B; pose proof (Rabs_pos N); lra).
  set (t1 := (- B - A - 1) / 9.36).
  set (t2 := (B - A + 1) / 9.36).
  assert (Ht : t1 < t2) by (unfold t1, t2; lra).
  pose proof (Rpower_pos 10 t1) as Hu1.
  assert (Hu : Rpower 10 t1 < Rpower 10 t2) by (apply Rpower_lt; lra).
  destruct (residual_in_u_at_power A N t1) as [_ Hhi].
  destruct (residual_in_u_at_power A N t2) as [Hlo _].
  fold B in Hhi, Hlo.
  destruct (IVT_interv (residual_in_u A N) (Rpower 10 t1) (Rpower 10 t2))
    as [z [Hz Hroot]].
  - intros a Ha. apply continuity_pt_residual_in_u. lra.
  - exact Hu.
  - assert (9.36 * t1 = - B - A - 1) by (unfold t1; lra). lra.
  - assert (9.36 * t2 = B - A + 1) by (unfold t2; lra). lra.
  - exists (z - 1). split; [lra |].
    rewrite residual_in_u_value by lra. fold A N.
    replace (z - 1 + 1) with z by lra. now rewrite Hroot.
Qed.

Lemma residual_has_a_root_reference :
  (0 < 5000000 /\ 0 < 7500) /\
  exists SN : R,
    -1 < SN /\ aashto_equation SN 5000000 (-1.282) 0.45 1.7 7500 = Ok 0.
Proof.
  split; [lra | apply residual_has_a_root; lra].
Defined.

(** ** The floor is not a lower bound *)

(** X19.  The numerator of line 157 is -3 for every deltaPSI <= 6.3, but
    just above 6.3 it takes the logarithm of a small positive number: for
    6.3 < deltaPSI < 6.3042 it is below -3, it reaches -3 again only at
    6.3042, and it goes below any bound as deltaPSI approaches 6.3 from
    above. *)
Theorem floor_is_not_a_lower_bound (d M : R) :
  exists n : R,
    term3_numerator d = Ok n /\
    (d <= 6.3 -> n = -3) /\
    (6.3 < d < 6.3042 -> n < -3) /\
    (6.3042 <= d -> -3 <= n) /\
  exists d' n' : R,
    6.3 < d' /\ term3_numerator d' = Ok n' /\ n' < M.
Proof.
  rewrite term3_numerator_value. eexists. split; [reflexivity |].
  unfold edge_case_numerator.
  split; [| split; [| split]].
  - intros Hd. destruct (Rlt_dec 0 (d / 4.2 - 1.5)); [lra |].
    apply log10_floor_value.
  - intros Hd. destruct (Rlt_dec 0 (d / 4.2 - 1.5)); [| lra].
    rewrite <- log10_floor_value. apply log10_increasing; lra.
  - intros Hd. destruct (Rlt_dec 0 (d / 4.2 - 1.5)); [| lra].
    rewrite <- log10_floor_value. apply log10_monotone; lra.
  - pose proof (Rpower_pos 10 (M - 1)) as Hp.
    exists (4.2 * (1.5 + Rpower 10 (M - 1))), (M - 1).
    split; [lra | split; [| lra]].
    rewrite term3_numerator_value. unfold edge_case_numerator.
    replace (4.2 * (1.5 + Rpower 10 (M - 1)) / 4.2 - 1.5)
      with (Rpower 10 (M - 1)) by lra.
    destruct (Rlt_dec 0 (Rpower 10 (M - 1))); [| lra].
    now rewrite log10_Rpower_10.
Qed.

(** ** The default page: what is shown is not a solution *)

Lemma solve_returns_iterate (hybrd : minpack) (w : widgets) (zr x : R) (status : Z) :
  hybrd (residual_of w zr) SN_initial_guess = Ok (x, status) ->
  (1 <= status <= 5)%Z ->
  on_click hybrd w zr = Success (make_report x).
Proof.
  intros Hk Hst. unfold on_click. rewrite fsolve_unfold, Hk. simpl.
  destruct (Z.eqb_spec status 0); [lia |].
  destruct (Z.eqb_spec status 1); [reflexivity |].
  destruct (Z.leb_spec 2 status); [| lia].
  destruct (Z.leb_spec status 5); [| lia].
  reflexivity.
Qed.

Lemma page_shows_iterate (hybrd : minpack) (w : widgets) (zr x : R) (status : Z) :
  z_r w = Ok zr -> button w = true ->
  hybrd (residual_of w zr) SN_initial_guess = Ok (x, status) ->
  (1 <= status <= 5)%Z ->
  page hybrd w = Ok (Success (make_report x)).
Proof.
  intros Hz Hb Hk Hst. unfold page. rewrite Hz. simpl. rewrite Hb.
  now rewrite (solve_returns_iterate hybrd w zr x status Hk Hst).
Qed.

Lemma reference_residual_near_stall (SN : R) :
  2 <= SN -> SN <= 2.125 ->
  exists v : R,
    residual_of reference_widgets (-1.282) SN = Ok v /\ v < -2.5.
Proof.
  intros Hlo Hhi. rewrite residual_of_reference_value by lra.
  eexists. split; [reflexivity |].
  rewrite log10_7500, log10_5000000.
  pose proof log10_2_lower as Ha. pose proof log10_3_upper as Hb.
  assert (HL : log10 (SN + 1) <= 2 - 5 * log10 2).
  { assert (H : log10 (3.125 * (2 * (2 * (2 * (2 * 2)))))
                = log10 (10 * 10)) by (f_equal; lra).
    rewrite !log10_mult in H by lra. rewrite log10_10 in H.
    pose proof (log10_monotone (SN + 1) 3.125 ltac:(lra) ltac:(lra)). lra. }
  assert (H3 : (-3) / (0.40 + 1094 / Rpower (SN + 1) 5.19) <= -0.61).
  { etransitivity;
      [apply (third_term_upper 3 (SN + 1) (0.40 + 1094 / 3 ^ 5)); lra | lra]. }
  lra.
Qed.

(** C3, on the code.  On the page's default inputs (the worked reference)
    every iterate in (-1, 30] that the root-finder hands back, converged
    or not, is shown as the required SN together with its rounded value
    ceil(SN*2)/2, although the residual there is below -0.01 (below -2.5
    for an iterate in [2, 2.125]), so |f(SN)| < 1e-4 fails; an SN that
    does satisfy |f(SN)| < 1e-4 lies beyond 30 and carries the "very high"
    note. *)
Theorem reference_result_is_not_a_root
        (hybrd : minpack) (x : R) (status : Z) :
  hybrd (residual_of reference_widgets (-1.282)) SN_initial_guess
  = Ok (x, status) ->
  (1 <= status <= 5)%Z -> -1 < x -> x <= 30 ->
  page hybrd reference_widgets = Ok (Success (make_report x)) /\
  SN_shown_rounded (make_report x) = IZR (Zceil (x * 2)) / 2 /\
  (exists v : R,
     residual_of reference_widgets (-1.282) x = Ok v /\
     v < -0.01 /\ ~ Rabs v < 0.0001 /\
     (2 <= x <= 2.125 -> v < -2.5)) /\
  (forall SN v : R,
     -1 < SN -> residual_of reference_widgets (-1.282) SN = Ok v ->
     Rabs v < 0.0001 ->
     30 < SN /\ note (make_report SN) = SN_very_high).
Proof.
  intros Hk Hst Hlo Hhi.
  split; [| split; [reflexivity | split]].
  - apply (page_shows_iterate hybrd reference_widgets (-1.282) x status);
      [exact z_r_reference | reflexivity | exact Hk | exact Hst].
  - destruct (reference_residual_negative x Hlo Hhi) as [v [Hv Hneg]].
    exists v. split; [exact Hv | split; [exact Hneg | split]].
    + rewrite Rabs_left by lra. lra.
    + intros [H2 H2'].
      destruct (reference_residual_near_stall x H2 H2') as [v' [Hv' Hlow]].
      rewrite Hv in Hv'. injection Hv' as <-. exact Hlow.
  - intros SN v HSN Hv Habs.
    assert (H30 : 30 < SN).
    { destruct (Rlt_dec 30 SN) as [H | H]; [exact H | exfalso].
      destruct (reference_residual_negative SN HSN ltac:(lra)) as [v' [Hv' Hneg]].
      rewrite Hv in Hv'. injection Hv' as <-.
      rewrite Rabs_left in Habs by lra. lra. }
    split; [exact H30 |].
    unfold make_report, advise. simpl.
    destruct (Rlt_dec 6 SN); [reflexivity | lra].
Qed.

Lemma reference_result_is_not_a_root_stalled :
  (stopped_with 2.12 5 (residual_of reference_widgets (-1.282)) SN_initial_guess
   = Ok (2.12, 5%Z) /\ (1 <= 5 <= 5)%Z /\ -1 < 2.12 /\ 2.12 <= 30) /\
  page (stopped_with 2.12 5) reference_widgets
  = Ok (Success (make_report 2.12)) /\
  SN_shown_rounded (make_report 2.12) = IZR (Zceil (2.12 * 2)) / 2 /\
  (exists v : R,
     residual_of reference_widgets (-1.282) 2.12 = Ok v /\
     v < -0.01 /\ ~ Rabs v < 0.0001 /\
     (2 <= 2.12 <= 2.125 -> v < -2.5)) /\
  (forall SN v : R,
     -1 < SN -> residual_of reference_widgets (-1.282) SN = Ok v ->
     Rabs v < 0.0001 ->
     30 < SN /\ note (make_report SN) = SN_very_high).
Proof.
  assert (Hk : stopped_with 2.12 5 (residual_of reference_widgets (-1.282))
                            SN_initial_guess = Ok (2.12, 5%Z)).
  { eapply stopped_with_ok, residual_of_reference_defined. }
  split; [split; [exact Hk | split; [lia | lra]] |].
  apply (reference_result_is_not_a_root (stopped_with 2.12 5) 2.12 5 Hk);
    [lia | lra | lra].
Defined.

(** ** More traffic, smaller SN *)

Lemma Rpower_4_019 : 1.29 <= Rpower 4 0.19 <= 1.3014.
Proof.
  set (y := Rpower 4 0.19).
  assert (Hy : 0 < y) by apply Rpower_pos.
  assert (Hy100 : y ^ 100 = 4 ^ 19).
  { rewrite <- (Rpower_pow 100) by assumption. unfold y.
    rewrite Rpower_mult.
    replace (0.19 * INR 100) with (INR 19)
      by (rewrite !INR_IZR_INZ; simpl; lra).
    apply Rpower_pow. lra. }
  split.
  - destruct (Rle_dec 1.29 y) as [H | H]; [exact H | exfalso].
    assert (Hpow : y ^ 100 <= 1.29 ^ 100) by (apply pow_incr; lra).
    rewrite Hy100 in Hpow. lra.
  - destruct (Rle_dec y 1.3014) as [H | H]; [exact H | exfalso].
    assert (Hpow : 1.3014 ^ 100 <= y ^ 100) by (apply pow_incr; lra).
    rewrite Hy100 in Hpow. lra.
Qed.

Lemma Rpower_4_bounds : 1320.96 <= Rpower 4 5.19 <= 1332.6336.
Proof.
  replace 5.19 with (INR 5 + 0.19) by (simpl; lra).
  rewrite Rpower_plus, Rpower_pow by lra.
  pose proof Rpower_4_019. lra.
Qed.

Lemma third_term_at_guess :
  -2.4572 <= (-3) / (0.40 + 1094 / Rpower (3 + 1) 5.19) <= -2.44.
Proof.
  replace (3 + 1) with 4 by lra.
  destruct Rpower_4_bounds as [Hlo Hhi].
  assert (Hq : 1094 / 1332.6336 <= 1094 / Rpower 4 5.19 <= 1094 / 1320.96).
  { unfold Rdiv. split; apply Rmult_le_compat_l; try lra;
      apply Rinv_le_contravar; lra. }
  set (d := 0.40 + 1094 / Rpower 4 5.19) in *.
  assert (Hd : 1.22093 <= d <= 1.2282) by (unfold d; lra).
  assert (Hinv : / 1.2282 <= / d <= / 1.22093).
  { split; apply Rinv_le_contravar; lra. }
  unfold Rdiv. lra.
Qed.

Lemma z_r_with_traffic (W18 : R) : z_r (with_traffic W18) = Ok (-1.282).
Proof.
  unfold z_r, with_traffic, z_r_dict, getitem. simpl. decide_key.
Qed.

Lemma residual_with_traffic (W18 SN : R) :
  0 < W18 -> -1 < SN ->
  residual_of (with_traffic W18) (-1.282) SN =
  Ok (floored_residual
        (-1.282 * 0.45 - 0.20 + (2.32 * log10 7500 - 8.07) - log10 W18)
        (SN + 1)).
Proof.
  intros HW HSN.
  unfold residual_of, with_traffic, mr, delta_psi. simpl.
  rewrite aashto_equation_value by lra.
  unfold edge_case_numerator.
  destruct (Rlt_dec 0 ((4.2 - 2.5) / 4.2 - 1.5)); [lra |].
  rewrite log10_floor_value.
  replace (1500 * 5.0) with 7500 by lra.
  f_equal. unfold floored_residual, log10. lra.
Qed.

Lemma log10_2000 : log10 2000 = 3 + log10 2.
Proof.
  replace 2000 with (10 * (10 * (10 * 2))) by lra.
  rewrite !log10_mult by lra. rewrite log10_10. lra.
Qed.

Lemma log10_3000 : log10 3000 = 3 + log10 3.
Proof.
  replace 3000 with (10 * (10 * (10 * 3))) by lra.
  rewrite !log10_mult by lra. rewrite log10_10. lra.
Qed.

Lemma floored_residual_unfold (A u : R) :
  floored_residual A u
  = A + 9.36 * log10 u + (-3) / (0.40 + 1094 / Rpower u 5.19).
Proof. reflexivity. Qed.

(** The signs of the residual around the initial guess for 2000 and for
    3000 ESALs. *)
Lemma signs_at_2000 :
  0 < floored_residual
        (-1.282 * 0.45 - 0.20 + (2.32 * log10 7500 - 8.07) - log10 2000)
        (3 + 1) /\
  floored_residual
    (-1.282 * 0.45 - 0.20 + (2.32 * log10 7500 - 8.07) - log10 2000)
    (4 + 1) < 0.
Proof.
  rewrite !floored_residual_unfold, log10_7500, log10_2000.
  pose proof log10_2_lower. pose proof log10_2_upper.
  pose proof log10_3_lower. pose proof log10_3_upper.
  split.
  - destruct third_term_at_guess as [H3 _].
    replace (3 + 1) with (2 * 2) at 1 by lra.
    rewrite log10_mult by lra. lra.
  - replace (4 + 1) with 5 by lra. rewrite log10_5.
    assert (H3 : (-3) / (0.40 + 1094 / Rpower 5 5.19) <= -3.99).
    { etransitivity;
        [apply (third_term_upper 5 5 (0.40 + 1094 / 5 ^ 5)); lra | lra]. }
    lra.
Qed.

Lemma signs_at_3000 :
  0 < floored_residual
        (-1.282 * 0.45 - 0.20 + (2.32 * log10 7500 - 8.07) - log10 3000)
        (2 + 1) /\
  floored_residual
    (-1.282 * 0.45 - 0.20 + (2.32 * log10 7500 - 8.07) - log10 3000)
    (3 + 1) < 0.
Proof.
  rewrite !floored_residual_unfold, log10_7500, log10_3000.
  pose proof log10_2_lower. pose proof log10_2_upper.
  pose proof log10_3_lower. pose proof log10_3_upper.
  split.
  - pose proof third_term_at_2 as H3.
    replace (2 + 1) with 3 in * by lra. lra.
  - destruct third_term_at_guess as [_ H3].
    replace (3 + 1) with (2 * 2) at 1 by lra.
    rewrite log10_mult by lra. lra.
Qed.

(** A sign change of the residual from positive to negative encloses an
    exact root. *)
Lemma floored_residual_root_falling (A a b : R) :
  0 < a -> a < b ->
  0 < floored_residual A a -> floored_residual A b < 0 ->
  exists z : R, a < z < b /\ floored_residual A z = 0.
Proof.
  intros Ha Hab Hpos Hneg.
  destruct (IVT_interv (- floored_residual A)%F a b) as [z [Hz Hroot]].
  - intros t Ht. apply continuity_pt_opp.
    apply continuity_pt_floored_residual. lra.
  - exact Hab.
  - unfold opp_fct. lra.
  - unfold opp_fct. lra.
  - unfold opp_fct in Hroot.
    assert (Hza : z <> a) by (intros ->; lra).
    assert (Hzb : z <> b) by (intros ->; lra).
    exists z. split; lra.
Qed.

Lemma residual_2000_at_guess :
  exists v : R,
    residual_of (with_traffic 2000) (-1.282) SN_initial_guess = Ok v /\ 0 < v.
Proof.
  rewrite residual_with_traffic by (unfold SN_initial_guess; lra).
  eexists. split; [reflexivity |].
  replace (SN_initial_guess + 1) with (3 + 1) by (unfold SN_initial_guess; lra).
  apply signs_at_2000.
Qed.

Lemma residual_3000_at_guess :
  exists v : R,
    residual_of (with_traffic 3000) (-1.282) SN_initial_guess = Ok v /\ v < 0.
Proof.
  rewrite residual_with_traffic by (unfold SN_initial_guess; lra).
  eexists. split; [reflexivity |].
  replace (SN_initial_guess + 1) with (3 + 1) by (unfold SN_initial_guess; lra).
  apply signs_at_3000.
Qed.

Lemma root_of_2000 :
  exists r : R,
    3 < r < 4 /\ residual_of (with_traffic 2000) (-1.282) r = Ok 0.
Proof.
  destruct signs_at_2000 as [Hpos Hneg].
  destruct (floored_residual_root_falling _ (3 + 1) (4 + 1)
              ltac:(lra) ltac:(lra) Hpos Hneg) as [z [Hz Hroot]].
  exists (z - 1). split; [lra |].
  rewrite residual_with_traffic by lra.
  replace (z - 1 + 1) with z by lra. now rewrite Hroot.
Qed.

Lemma root_of_3000 :
  exists r : R,
    2 < r < 3 /\ residual_of (with_traffic 3000) (-1.282) r = Ok 0.
Proof.
  destruct signs_at_3000 as [Hpos Hneg].
  destruct (floored_residual_root_falling _ (2 + 1) (3 + 1)
              ltac:(lra) ltac:(lra) Hpos Hneg) as [z [Hz Hroot]].
  exists (z - 1). split; [lra |].
  rewrite residual_with_traffic by lra.
  replace (z - 1 + 1) with z by lra. now rewrite Hroot.
Qed.

(** C5, on the code.  Take the page's default inputs with 2000 and with
    3000 ESALs, two runs that differ only in W18.  At the initial guess
    SN = 3 the residual is positive for 2000 and negative for 3000, and
    it has an exact root in (3, 4) for 2000 and an exact root in (2, 3)
    for 3000.  Whenever the root-finder hands back an iterate above 3 for
    2000 and one below 3 for 3000, the page shows both as the required SN:
    the larger traffic gets the smaller SN. *)
Theorem more_traffic_smaller_SN
        (hybrd : minpack) (x x' : R) (status status' : Z) :
  hybrd (residual_of (with_traffic 2000) (-1.282)) SN_initial_guess
  = Ok (x, status) ->
  hybrd (residual_of (with_traffic 3000) (-1.282)) SN_initial_guess
  = Ok (x', status') ->
  (1 <= status <= 5)%Z -> (1 <= status' <= 5)%Z ->
  3 < x -> x' < 3 ->
  (esal_input (with_traffic 2000) < esal_input (with_traffic 3000) /\
   same_but_traffic (with_traffic 2000) (with_traffic 3000)) /\
  page hybrd (with_traffic 2000) = Ok (Success (make_report x)) /\
  page hybrd (with_traffic 3000) = Ok (Success (make_report x')) /\
  SN_required (make_report x') < SN_required (make_report x) /\
  (exists v : R,
     residual_of (with_traffic 2000) (-1.282) SN_initial_guess = Ok v /\
     0 < v) /\
  (exists v : R,
     residual_of (with_traffic 3000) (-1.282) SN_initial_guess = Ok v /\
     v < 0) /\
  (exists r : R,
     3 < r < 4 /\ residual_of (with_traffic 2000) (-1.282) r = Ok 0) /\
  (exists r : R,
     2 < r < 3 /\ residual_of (with_traffic 3000) (-1.282) r = Ok 0).
Proof.
  intros Hk Hk' Hst Hst' Hx Hx'.
  split; [| split; [| split; [| split; [| split; [| split; [| split]]]]]].
  - split; [simpl; lra |].
    unfold same_but_traffic. simpl. tauto.
  - apply (page_shows_iterate hybrd (with_traffic 2000) (-1.282) x status);
      [apply z_r_with_traffic | reflexivity | exact Hk | exact Hst].
  - apply (page_shows_iterate hybrd (with_traffic 3000) (-1.282) x' status');
      [apply z_r_with_traffic | reflexivity | exact Hk' | exact Hst'].
  - simpl. lra.
  - exact residual_2000_at_guess.
  - exact residual_3000_at_guess.
  - exact root_of_2000.
  - exact root_of_3000.
Qed.

Lemma answers_by_sign_above (above below : R) (f : R -> result R) (x0 v : R) :
  f x0 = Ok v -> 0 < v -> answers_by_sign above below f x0 = Ok (above, 1%Z).
Proof.
  intros Hf Hv. unfold answers_by_sign. rewrite Hf. simpl.
  destruct (Rlt_dec 0 v); [reflexivity | contradiction].
Qed.

Lemma answers_by_sign_below (above below : R) (f : R -> result R) (x0 v : R) :
  f x0 = Ok v -> v < 0 -> answers_by_sign above below f x0 = Ok (below, 1%Z).
Proof.
  intros Hf Hv. unfold answers_by_sign. rewrite Hf. simpl.
  destruct (Rlt_dec 0 v); [lra | reflexivity].
Qed.

Lemma more_traffic_smaller_SN_at_2000_3000 :
  (answers_by_sign 3.018 2.855
     (residual_of (with_traffic 2000) (-1.282)) SN_initial_guess
   = Ok (3.018, 1%Z) /\
   answers_by_sign 3.018 2.855
     (residual_of (with_traffic 3000) (-1.282)) SN_initial_guess
   = Ok (2.855, 1%Z) /\
   (1 <= 1 <= 5)%Z /\ 3 < 3.018 /\ 2.855 < 3) /\
  (esal_input (with_traffic 2000) < esal_input (with_traffic 3000) /\
   same_but_traffic (with_traffic 2000) (with_traffic 3000)) /\
  page (answers_by_sign 3.018 2.855) (with_traffic 2000)
  = Ok (Success (make_report 3.018)) /\
  page (answers_by_sign 3.018 2.855) (with_traffic 3000)
  = Ok (Success (make_report 2.855)) /\
  SN_required (make_report 2.855) < SN_required (make_report 3.018) /\
  (exists v : R,
     residual_of (with_traffic 2000) (-1.282) SN_initial_guess = Ok v /\
     0 < v) /\
  (exists v : R,
     residual_of (with_traffic 3000) (-1.282) SN_initial_guess = Ok v /\
     v < 0) /\
  (exists r : R,
     3 < r < 4 /\ residual_of (with_traffic 2000) (-1.282) r = Ok 0) /\
  (exists r : R,
     2 < r < 3 /\ residual_of (with_traffic 3000) (-1.282) r = Ok 0).
Proof.
  destruct residual_2000_at_guess as [v [Hv Hpos]].
  destruct residual_3000_at_guess as [v' [Hv' Hneg]].
  pose proof (answers_by_sign_above 3.018 2.855 _ _ _ Hv Hpos) as Hk.
  pose proof (answers_by_sign_below 3.018 2.855 _ _ _ Hv' Hneg) as Hk'.
  split; [split; [exact Hk | split; [exact Hk' | split; [lia | lra]]] |].
  apply (more_traffic_smaller_SN (answers_by_sign 3.018 2.855)
           3.018 2.855 1 1 Hk Hk'); [lia | lia | lra | lra].
Defined.
